(** * FileCraft: the session and orchestration layer of [App.tsx]

    A shallow embedding of the state container of the [App] component:
    its [useState] variables, its three [useEffect] hooks over
    [localStorage], its synchronous handlers and its two asynchronous
    handlers ([handleFileSelect], [handleConversionSelect]), the latter
    cut at their [await] points into tasks that the event loop resumes. *)

From Stdlib Require Import ZArith Ascii String Lia.
From stdpp Require Import base option list gmap strings.

Local Open Scope string_scope.
Local Open Scope Z_scope.

(** ** JavaScript strings

    A string is a sequence of characters.  The program itself only looks
    for the ['.'] character and for three fixed affixes; lower-casing a
    format tag is the browser's [toLowerCase], which the model takes
    from the browser. *)

Module Js.

(** [s.includes(c)] for a one-character search string. *)
Fixpoint includes (s : string) (c : ascii) : bool :=
  match s with
  | EmptyString => false
  | String a s' => if Ascii.eqb a c then true else includes s' c
  end.

(** [s.lastIndexOf(c)]: the index of the last occurrence, [-1] if none. *)
Fixpoint lastIndexOf (s : string) (c : ascii) : Z :=
  match s with
  | EmptyString => -1
  | String a s' =>
      let r := lastIndexOf s' c in
      if 0 <=? r then r + 1
      else if Ascii.eqb a c then 0 else -1
  end.

Definition strlen (s : string) : Z := Z.of_nat (String.length s).

Definition clamp (len i : Z) : Z := Z.max 0 (Z.min i len).

(** [s.substring(from, to)]: both indices are clamped to [0, length]
    and swapped when out of order. *)
Definition substring (s : string) (from to : Z) : string :=
  let a := clamp (strlen s) from in
  let b := clamp (strlen s) to in
  let lo := Z.min a b in
  let hi := Z.max a b in
  String.substring (Z.to_nat lo) (Z.to_nat (hi - lo)) s.

Definition lower (a : ascii) : ascii :=
  let n := N_of_ascii a in
  if ((65 <=? n) && (n <=? 90))%N then ascii_of_N (n + 32) else a.

(** ASCII lowercase of a string: [A]-[Z] become [a]-[z], every other
    character stays.  It is what the [Blob] constructor applies to its
    [type] option, and what [toLowerCase] does to a string of ASCII
    characters. *)
Fixpoint asciiLowercase (s : string) : string :=
  match s with
  | EmptyString => EmptyString
  | String a s' => String (lower a) (asciiLowercase s')
  end.

(** All characters are ASCII (below U+0080). *)
Fixpoint isAscii (s : string) : bool :=
  match s with
  | EmptyString => true
  | String a s' => (N_of_ascii a <? 128)%N && isAscii s'
  end.

(** All characters are in the range U+0020 to U+007E. *)
Fixpoint inTypeRange (s : string) : bool :=
  match s with
  | EmptyString => true
  | String a s' => (32 <=? N_of_ascii a)%N && (N_of_ascii a <=? 126)%N && inTypeRange s'
  end.

(** The [type] of the blob that [new Blob(parts, {type})] returns: empty
    when [type] has a character outside U+0020 to U+007E, and [type]
    in ASCII lowercase otherwise. *)
Definition blobType (type : string) : string :=
  if inTypeRange type then asciiLowercase type else EmptyString.

(** What [String.prototype.toLowerCase] is known to do whatever the
    text: on a string of ASCII characters it is the ASCII lowercase.
    Outside ASCII it follows the Unicode case mappings, which are left
    to the browser. *)
Definition lowersAscii (toLowerCase : string -> string) : Prop :=
  forall s, isAscii s = true -> toLowerCase s = asciiLowercase s.

Definition charCode (a : ascii) : N := N_of_ascii a.

(** [s.charCodeAt(i)] for an index inside the string. *)
Definition charCodeAt (s : string) (i : nat) : N :=
  match String.get i s with
  | Some a => charCode a
  | None => 0%N
  end.

(** Truthiness of a value of type [number | undefined]: [undefined]
    and [0] are falsy. *)
Definition truthy (n : option Z) : bool :=
  match n with
  | Some t => negb (t =? 0)
  | None => false
  end.

(** [x > y] where [y] may be [undefined]: a comparison with
    [undefined] is false. *)
Definition gt (x : Z) (y : option Z) : bool :=
  match y with
  | Some t => t <? x
  | None => false
  end.

(** [s.startsWith(p)]. *)
Definition startsWith (s p : string) : bool := String.prefix p s.

(** [s.endsWith(suffix)]: some tail of [s] is [suffix]. *)
Fixpoint endsWith (s suffix : string) : bool :=
  if String.eqb s suffix then true
  else match s with
       | EmptyString => false
       | String _ s' => endsWith s' suffix
       end.

End Js.

(** ** [types.ts] *)

Record ConversionSuggestion := {
  cs_format : string;
  cs_extension : string
}.

Record FileAnalysisResult := {
  fileType : string;
  extension : string;
  fa_description : string;
  commonUses : list string;
  potentialRisks : list string;
  fa_conversionSuggestions : list ConversionSuggestion
}.

Record ImageAnalysisResult := {
  format : string;
  ia_description : string;
  tags : list string;
  editSuggestions : list string;
  ia_conversionSuggestions : list ConversionSuggestion
}.

(** The union discriminated by its [type] field. *)
Inductive AnalysisResult :=
| TypeFile (r : FileAnalysisResult)
| TypeImage (r : ImageAnalysisResult).

Record ConversionResult := {
  content : string;
  isBinary : bool;
  mimeType : string
}.

Inductive ScanStatus := clean | threat_found.

Record ScanResult := {
  status : ScanStatus;
  threatName : option string;
  scannedAt : string;
  engineVersion : string
}.

Inductive Subscription := FreeTrial | Pro | Expired.

#[global] Instance Subscription_eq_dec : EqDecision Subscription.
Proof. solve_decision. Defined.

Record Settings := {
  darkMode : bool;
  notifications : bool
}.

Record User := {
  name : string;
  subscription : Subscription;
  trialEndsAt : option Z;
  settings : Settings
}.

Record ConversionHistoryEntry := {
  id : string;
  originalName : string;
  fromFormat : string;
  toFormat : string;
  timestamp : string
}.

(** ** Browser objects *)

(** A DOM [File]: a name, a MIME type, a modification time and bytes. *)
Record File := {
  file_name : string;
  file_type : string;
  lastModified : Z;
  file_bytes : list N
}.

Inductive BlobParts :=
| Bytes (byteArray : list N)
| Text (s : string).

Record Blob := {
  blob_parts : BlobParts;
  blob_type : string
}.

(** What [a.click()] hands to the browser: the anchor's [download]
    attribute and the blob behind its [href]. *)
Record Download := {
  download : string;
  href : Blob
}.

(** The two keys of [localStorage] the component uses.  A slot holds the
    value whose [JSON.stringify] text is stored; [None] is what
    [getItem] answers with [null] for. *)
Record LocalStorage := {
  filecraft_user : option User;
  filecraft_history : option (list ConversionHistoryEntry)
}.

(** A value thrown, or the reason of a rejected promise: an [Error] with
    its message, or anything else. *)
Inductive Thrown :=
| ErrorObject (message : string)
| OtherValue.

(** How a call or an [await] completes: with a value, or by throwing
    (awaiting a rejected promise throws its reason). *)
Inductive Completion (A : Type) :=
| Return (a : A)
| Throw (err : Thrown).
Arguments Return {A} a.
Arguments Throw {A} err.

(** What the browser answers during one run of the conversion handler:
    [atob] (which throws on text that is not base64),
    [String.prototype.toLowerCase], [crypto.randomUUID()] and
    [new Date().toISOString()]. *)
Record Browser := {
  atob : string -> Completion string;
  toLowerCase : string -> string;
  randomUUID : string;
  toISOString : string
}.

(** [new Blob(parts, {type})]. *)
Definition newBlob (parts : BlobParts) (type : string) : Blob :=
  {| blob_parts := parts; blob_type := Js.blobType type |}.

(** ** The state of the component: one field per [useState] *)

Record Session := {
  selectedFile : option File;
  analysisResult : option AnalysisResult;
  scanResult : option ScanResult;
  isLoading : bool;
  loadingMessage : string;
  error : option string;
  scripts : option (gmap string string);
  currentUser : option User;
  isProfileOpen : bool;
  conversionHistory : list ConversionHistoryEntry;
  isSubscriptionModalOpen : bool
}.

Definition initialSession : Session := {|
  selectedFile := None;
  analysisResult := None;
  scanResult := None;
  isLoading := false;
  loadingMessage := "";
  error := None;
  scripts := None;
  currentUser := None;
  isProfileOpen := false;
  conversionHistory := [];
  isSubscriptionModalOpen := false
|}.

(** Record update, one function per field. *)

Definition with_selectedFile (v : option File) (s : Session) : Session := {|
  selectedFile := v;
  analysisResult := analysisResult s;
  scanResult := scanResult s;
  isLoading := isLoading s;
  loadingMessage := loadingMessage s;
  error := error s;
  scripts := scripts s;
  currentUser := currentUser s;
  isProfileOpen := isProfileOpen s;
  conversionHistory := conversionHistory s;
  isSubscriptionModalOpen := isSubscriptionModalOpen s
|}.

Definition with_analysisResult (v : option AnalysisResult) (s : Session) : Session := {|
  selectedFile := selectedFile s;
  analysisResult := v;
  scanResult := scanResult s;
  isLoading := isLoading s;
  loadingMessage := loadingMessage s;
  error := error s;
  scripts := scripts s;
  currentUser := currentUser s;
  isProfileOpen := isProfileOpen s;
  conversionHistory := conversionHistory s;
  isSubscriptionModalOpen := isSubscriptionModalOpen s
|}.

Definition with_scanResult (v : option ScanResult) (s : Session) : Session := {|
  selectedFile := selectedFile s;
  analysisResult := analysisResult s;
  scanResult := v;
  isLoading := isLoading s;
  loadingMessage := loadingMessage s;
  error := error s;
  scripts := scripts s;
  currentUser := currentUser s;
  isProfileOpen := isProfileOpen s;
  conversionHistory := conversionHistory s;
  isSubscriptionModalOpen := isSubscriptionModalOpen s
|}.

Definition with_isLoading (v : bool) (s : Session) : Session := {|
  selectedFile := selectedFile s;
  analysisResult := analysisResult s;
  scanResult := scanResult s;
  isLoading := v;
  loadingMessage := loadingMessage s;
  error := error s;
  scripts := scripts s;
  currentUser := currentUser s;
  isProfileOpen := isProfileOpen s;
  conversionHistory := conversionHistory s;
  isSubscriptionModalOpen := isSubscriptionModalOpen s
|}.

Definition with_loadingMessage (v : string) (s : Session) : Session := {|
  selectedFile := selectedFile s;
  analysisResult := analysisResult s;
  scanResult := scanResult s;
  isLoading := isLoading s;
  loadingMessage := v;
  error := error s;
  scripts := scripts s;
  currentUser := currentUser s;
  isProfileOpen := isProfileOpen s;
  conversionHistory := conversionHistory s;
  isSubscriptionModalOpen := isSubscriptionModalOpen s
|}.

Definition with_error (v : option string) (s : Session) : Session := {|
  selectedFile := selectedFile s;
  analysisResult := analysisResult s;
  scanResult := scanResult s;
  isLoading := isLoading s;
  loadingMessage := loadingMessage s;
  error := v;
  scripts := scripts s;
  currentUser := currentUser s;
  isProfileOpen := isProfileOpen s;
  conversionHistory := conversionHistory s;
  isSubscriptionModalOpen := isSubscriptionModalOpen s
|}.

Definition with_scripts (v : option (gmap string string)) (s : Session) : Session := {|
  selectedFile := selectedFile s;
  analysisResult := analysisResult s;
  scanResult := scanResult s;
  isLoading := isLoading s;
  loadingMessage := loadingMessage s;
  error := error s;
  scripts := v;
  currentUser := currentUser s;
  isProfileOpen := isProfileOpen s;
  conversionHistory := conversionHistory s;
  isSubscriptionModalOpen := isSubscriptionModalOpen s
|}.

Definition with_currentUser (v : option User) (s : Session) : Session := {|
  selectedFile := selectedFile s;
  analysisResult := analysisResult s;
  scanResult := scanResult s;
  isLoading := isLoading s;
  loadingMessage := loadingMessage s;
  error := error s;
  scripts := scripts s;
  currentUser := v;
  isProfileOpen := isProfileOpen s;
  conversionHistory := conversionHistory s;
  isSubscriptionModalOpen := isSubscriptionModalOpen s
|}.

Definition with_isProfileOpen (v : bool) (s : Session) : Session := {|
  selectedFile := selectedFile s;
  analysisResult := analysisResult s;
  scanResult := scanResult s;
  isLoading := isLoading s;
  loadingMessage := loadingMessage s;
  error := error s;
  scripts := scripts s;
  currentUser := currentUser s;
  isProfileOpen := v;
  conversionHistory := conversionHistory s;
  isSubscriptionModalOpen := isSubscriptionModalOpen s
|}.

Definition with_conversionHistory (v : list ConversionHistoryEntry) (s : Session) : Session := {|
  selectedFile := selectedFile s;
  analysisResult := analysisResult s;
  scanResult := scanResult s;
  isLoading := isLoading s;
  loadingMessage := loadingMessage s;
  error := error s;
  scripts := scripts s;
  currentUser := currentUser s;
  isProfileOpen := isProfileOpen s;
  conversionHistory := v;
  isSubscriptionModalOpen := isSubscriptionModalOpen s
|}.

Definition with_isSubscriptionModalOpen (v : bool) (s : Session) : Session := {|
  selectedFile := selectedFile s;
  analysisResult := analysisResult s;
  scanResult := scanResult s;
  isLoading := isLoading s;
  loadingMessage := loadingMessage s;
  error := error s;
  scripts := scripts s;
  currentUser := currentUser s;
  isProfileOpen := isProfileOpen s;
  conversionHistory := conversionHistory s;
  isSubscriptionModalOpen := v
|}.

(** ** State updates and the dependencies of the effects

    A handler queues updates through the setters; React then renders
    once and re-runs the effects whose dependency is no longer
    [Object.is]-equal to its value at the previous render.  Every
    non-null user and every history array the program passes to a setter
    is a fresh object, so [currentUser] stays the same dependency only
    from [null] to [null], and [conversionHistory] never does. *)

Record Update := {
  state : Session;
  userChanged : bool;
  historyChanged : bool
}.

Definition begin (s : Session) : Update :=
  {| state := s; userChanged := false; historyChanged := false |}.

Definition set (f : Session -> Session) (r : Update) : Update :=
  {| state := f (state r);
     userChanged := userChanged r;
     historyChanged := historyChanged r |}.

Definition setSelectedFile v := set (with_selectedFile v).
Definition setAnalysisResult v := set (with_analysisResult v).
Definition setScanResult v := set (with_scanResult v).
Definition setIsLoading v := set (with_isLoading v).
Definition setLoadingMessage v := set (with_loadingMessage v).
Definition setError v := set (with_error v).
Definition setScripts v := set (with_scripts v).
Definition setIsProfileOpen v := set (with_isProfileOpen v).
Definition setIsSubscriptionModalOpen v := set (with_isSubscriptionModalOpen v).

(** [setCurrentUser(prev => f(prev))]. *)
Definition updateCurrentUser (f : option User -> option User) (r : Update) : Update :=
  let prev := currentUser (state r) in
  {| state := with_currentUser (f prev) (state r);
     userChanged := userChanged r || negb (bool_decide (prev = None) && bool_decide (f prev = None));
     historyChanged := historyChanged r |}.

Definition setCurrentUser (v : option User) : Update -> Update :=
  updateCurrentUser (fun _ => v).

(** [setConversionHistory(prev => f(prev))]. *)
Definition updateConversionHistory
    (f : list ConversionHistoryEntry -> list ConversionHistoryEntry) (r : Update) : Update :=
  {| state := with_conversionHistory (f (conversionHistory (state r))) (state r);
     userChanged := userChanged r;
     historyChanged := true |}.

Definition setConversionHistory (v : list ConversionHistoryEntry) : Update -> Update :=
  updateConversionHistory (fun _ => v).

Notation "r |> f" := (f r) (at level 45, left associativity, only parsing).

(** ** The effects *)

(** Lines 48-50: the trial check of the load effect. *)
Definition resolveSubscriptionState (now : Z) (user : User) : User :=
  if bool_decide (subscription user = FreeTrial)
     && Js.truthy (trialEndsAt user)
     && Js.gt now (trialEndsAt user)
  then {| name := name user;
          subscription := Expired;
          trialEndsAt := trialEndsAt user;
          settings := settings user |}
  else user.

(** Lines 42-56: load the user and the history from [localStorage]. *)
Definition loadEffect (now : Z) (ls : LocalStorage) (r : Update) : Update :=
  let r :=
    match filecraft_user ls with
    | Some user => r |> setCurrentUser (Some (resolveSubscriptionState now user))
    | None => r
    end in
  match filecraft_history ls with
  | Some storedHistory => r |> setConversionHistory storedHistory
  | None => r
  end.

(** Lines 59-65: persist the user, or remove the record when there is none. *)
Definition persistUserEffect (s : Session) (ls : LocalStorage) : LocalStorage :=
  match currentUser s with
  | Some user =>
      {| filecraft_user := Some user; filecraft_history := filecraft_history ls |}
  | None =>
      {| filecraft_user := None; filecraft_history := filecraft_history ls |}
  end.

(** Lines 67-69: persist the history. *)
Definition persistHistoryEffect (s : Session) (ls : LocalStorage) : LocalStorage :=
  {| filecraft_user := filecraft_user ls;
     filecraft_history := Some (conversionHistory s) |}.

(** Line 216. *)
Definition isSubscriptionExpired (s : Session) : bool :=
  match currentUser s with
  | Some user => bool_decide (subscription user = Expired)
  | None => false
  end.

(** Lines 218-222: an expired subscription opens the subscription modal. *)
Definition expiredEffect (s : Session) : Session :=
  if isSubscriptionExpired s then with_isSubscriptionModalOpen true s else s.

(** The render that follows a batch of updates made at state [before]:
    the effects whose dependency changed run, in the order they are
    declared. *)
Definition persistEffects (r : Update) (ls : LocalStorage) : LocalStorage :=
  let s := state r in
  let ls := if userChanged r then persistUserEffect s ls else ls in
  if historyChanged r then persistHistoryEffect s ls else ls.

Definition modalEffect (before s : Session) : Session :=
  if bool_decide (isSubscriptionExpired s = isSubscriptionExpired before)
  then s
  else expiredEffect s.

Definition commit (before : Session) (r : Update) (ls : LocalStorage)
    : Session * LocalStorage :=
  (modalEffect before (state r), persistEffects r ls).

(** ** Handlers that run to completion *)

(** Lines 101-110: a [File] is immutable, renaming builds a new one over
    the same bytes. *)
Definition handleRenameFile (newName : string) (s : Session) (r : Update) : Update :=
  match selectedFile s with
  | None => r
  | Some selectedFile =>
      let newFile := {| file_name := newName;
                        file_type := file_type selectedFile;
                        lastModified := lastModified selectedFile;
                        file_bytes := file_bytes selectedFile |} in
      r |> setSelectedFile (Some newFile)
  end.

(** Lines 163-170. *)
Definition handleReset (r : Update) : Update :=
  r |> setSelectedFile None
    |> setAnalysisResult None
    |> setError None
    |> setScripts None
    |> setScanResult None
    |> setIsLoading false.

Definition threeDays : Z := 3 * 24 * 60 * 60 * 1000.

(** Lines 172-191.  [now] is the time [new Date()] reads.  [setDate]
    moves the local calendar date three days on and keeps the local
    time of day, so [getTime] then gives 72 hours after [now] less
    [clockChange], the amount by which the local clock (its offset from
    UTC) is put forward between the two: 0 in most weeks, an hour
    either way across a change to or from summer time. *)
Definition handleLogin (now clockChange : Z) (ls : LocalStorage) (r : Update) : Update :=
  match filecraft_user ls with
  | Some storedUser => r |> setCurrentUser (Some storedUser)
  | None =>
      let trialEnds := now + threeDays - clockChange in
      let newUser := {| name := "Alex Rider";
                        subscription := FreeTrial;
                        trialEndsAt := Some trialEnds;
                        settings := {| darkMode := true; notifications := false |} |} in
      r |> setCurrentUser (Some newUser)
  end.

(** Lines 193-197. *)
Definition handleLogout (r : Update) : Update :=
  r |> setCurrentUser None
    |> setIsProfileOpen false.

(** Lines 199-203. *)
Definition handleSettingsChange (newSettings : Settings) (s : Session) (r : Update) : Update :=
  match currentUser s with
  | Some _ =>
      r |> updateCurrentUser (fun prev =>
             match prev with
             | Some prev => Some {| name := name prev;
                                    subscription := subscription prev;
                                    trialEndsAt := trialEndsAt prev;
                                    settings := newSettings |}
             | None => None
             end)
  | None => r
  end.

(** Lines 205-212: the updates and the value returned. *)
Definition handleActivateSubscription (code : string) (s : Session) (r : Update)
    : Update * bool :=
  match bool_decide (code = "PRO-YEARLY-2024"), currentUser s with
  | true, Some currentUser =>
      (r |> setCurrentUser (Some {| name := name currentUser;
                                    subscription := Pro;
                                    trialEndsAt := None;
                                    settings := settings currentUser |})
         |> setIsSubscriptionModalOpen false,
       true)
  | _, _ => (r, false)
  end.

(** Lines 290-295: the subscription modal closes only while the
    subscription is not expired. *)
Definition handleSubscriptionClose (s : Session) (r : Update) : Update :=
  if isSubscriptionExpired s then r else r |> setIsSubscriptionModalOpen false.

(** ** The asynchronous handlers *)

(** Lines 16-24: decode base64 text into the bytes of a blob. *)
Fixpoint fillByteNumbers (byteCharacters : string) (i count : nat) (byteNumbers : list N)
    : list N :=
  match count with
  | O => byteNumbers
  | S count =>
      fillByteNumbers byteCharacters (S i) count
        (<[i := Js.charCodeAt byteCharacters i]> byteNumbers)
  end.

Definition base64ToBlob (atob : string -> Completion string) (base64 mimeType : string)
    : Completion Blob :=
  match atob base64 with
  | Throw err => Throw err
  | Return byteCharacters =>
      let len := String.length byteCharacters in
      let byteNumbers := fillByteNumbers byteCharacters 0 len (replicate len 0%N) in
      Return (newBlob (Bytes byteNumbers) mimeType)
  end.

(** A handler suspended at an [await]: the call it waits for and the
    variables its continuation closes over. *)
Inductive Task :=
| AwaitScan (file : File)
    (* line 84: simulateVirusScan(file) *)
| AwaitAnalyze (file : File) (scanStatus : ScanStatus)
    (* line 89: analyzeFile(file, scan.status) *)
| AwaitScripts (sourceFormat : string)
    (analysisResult : AnalysisResult) (selectedFile : File) (targetFormat : ConversionSuggestion)
    (* line 121: generateScripts(sourceFormat, targetFormat.format) *)
| AwaitConvert
    (analysisResult : AnalysisResult) (selectedFile : File) (targetFormat : ConversionSuggestion)
    (* line 124: convertFileContent(selectedFile, targetFormat.format) *).

(** How the awaited call completes; the last step of a conversion also
    consults the browser. *)
Inductive Settlement :=
| ScanSettled (c : Completion ScanResult)
| AnalyzeSettled (c : Completion AnalysisResult)
| ScriptsSettled (c : Completion (gmap string string))
| ConvertSettled (c : Completion ConversionResult) (browser : Browser).

(** What one stretch of a handler leaves behind: the updates it queued,
    the [await] it stopped at, and the file it made the browser save. *)
Record Stretch := {
  updates : Update;
  suspended : option Task;
  clicked : option Download
}.

Definition finished (r : Update) : Stretch :=
  {| updates := r; suspended := None; clicked := None |}.

Definition awaiting (t : Task) (r : Update) : Stretch :=
  {| updates := r; suspended := Some t; clicked := None |}.

(** Lines 92-98: the [catch] and [finally] blocks of [handleFileSelect]. *)
Definition fileSelectCatch (r : Update) : Update :=
  r |> setError (Some "Failed to process file. The AI model may be unavailable or the scan failed. Please try again later.").

Definition fileSelectFinally (r : Update) : Update :=
  r |> setIsLoading false
    |> setLoadingMessage "".

(** Lines 71-84: [handleFileSelect] up to its first [await]. *)
Definition handleFileSelect (file : option File) (r : Update) : Stretch :=
  match file with
  | None => finished r
  | Some file =>
      r |> setSelectedFile (Some file)
        |> setAnalysisResult None
        |> setScanResult None
        |> setError None
        |> setScripts None
        |> setIsLoading true
        |> setLoadingMessage "Scanning for threats..."
        |> awaiting (AwaitScan file)
  end.

(** Lines 154-160: the [catch] and [finally] blocks of
    [handleConversionSelect]. *)
Definition conversionCatch (err : Thrown) (r : Update) : Update :=
  let errorMessage :=
    match err with
    | ErrorObject message => message
    | OtherValue => "An unknown error occurred."
    end in
  r |> setError (Some ("Failed to perform conversion. " +:+ errorMessage)).

Definition conversionFinally (r : Update) : Update :=
  r |> setIsLoading false.

(** Line 120. *)
Definition sourceFormatOf (analysisResult : AnalysisResult) : string :=
  match analysisResult with
  | TypeFile r => fileType r
  | TypeImage r => format r
  end.

(** Lines 112-121: [handleConversionSelect] up to its first [await];
    [s] is the render whose [analysisResult] and [selectedFile] the
    callback closes over. *)
Definition handleConversionSelect (targetFormat : ConversionSuggestion)
    (s : Session) (r : Update) : Stretch :=
  match analysisResult s, selectedFile s with
  | Some analysisResult, Some selectedFile =>
      let sourceFormat := sourceFormatOf analysisResult in
      r |> setScripts None
        |> setError None
        |> setIsLoading true
        |> awaiting (AwaitScripts sourceFormat analysisResult selectedFile targetFormat)
  | _, _ => finished r
  end.

(** Lines 134-136. *)
Definition newFileName (selectedFile : File) (targetFormat : ConversionSuggestion) : string :=
  let oldName := file_name selectedFile in
  let baseName :=
    if Js.includes oldName "."
    then Js.substring oldName 0 (Js.lastIndexOf oldName ".")
    else oldName in
  baseName +:+ cs_extension targetFormat.

(** Lines 145-151. *)
Definition newHistoryEntry (browser : Browser)
    (analysisResult : AnalysisResult) (selectedFile : File) (targetFormat : ConversionSuggestion)
    : ConversionHistoryEntry :=
  {| id := randomUUID browser;
     originalName := file_name selectedFile;
     fromFormat := match analysisResult with
                   | TypeFile r => extension r
                   | TypeImage r => "." +:+ toLowerCase browser (format r)
                   end;
     toFormat := cs_extension targetFormat;
     timestamp := toISOString browser |}.

(** Lines 126-128. *)
Definition makeBlob (browser : Browser) (conversionResult : ConversionResult)
    : Completion Blob :=
  if isBinary conversionResult
  then base64ToBlob (atob browser) (content conversionResult) (mimeType conversionResult)
  else Return (newBlob (Text (content conversionResult)) (mimeType conversionResult)).

(** The continuation of a suspended handler, run when its awaited call
    settles; [None] when the settlement is not the one the task waits
    for. *)
Definition resume (t : Task) (st : Settlement) (r : Update) : option Stretch :=
  match t, st with
  (* lines 85-89 *)
  | AwaitScan file, ScanSettled (Return scan) =>
      Some (r |> setScanResult (Some scan)
              |> setLoadingMessage ("Analyzing " +:+ file_name file +:+ "...")
              |> awaiting (AwaitAnalyze file (status scan)))
  | AwaitScan file, ScanSettled (Throw err) =>
      Some (r |> fileSelectCatch |> fileSelectFinally |> finished)
  (* line 90 *)
  | AwaitAnalyze file _, AnalyzeSettled (Return result) =>
      Some (r |> setAnalysisResult (Some result) |> fileSelectFinally |> finished)
  | AwaitAnalyze file _, AnalyzeSettled (Throw err) =>
      Some (r |> fileSelectCatch |> fileSelectFinally |> finished)
  (* lines 122-124 *)
  | AwaitScripts _ analysisResult selectedFile targetFormat, ScriptsSettled (Return generatedScripts) =>
      Some (r |> setScripts (Some generatedScripts)
              |> awaiting (AwaitConvert analysisResult selectedFile targetFormat))
  | AwaitScripts _ _ _ _, ScriptsSettled (Throw err) =>
      Some (r |> conversionCatch err |> conversionFinally |> finished)
  (* lines 126-152 *)
  | AwaitConvert analysisResult selectedFile targetFormat, ConvertSettled (Return conversionResult) browser =>
      match makeBlob browser conversionResult with
      | Return blob =>
          let a := {| download := newFileName selectedFile targetFormat; href := blob |} in
          let entry := newHistoryEntry browser analysisResult selectedFile targetFormat in
          Some {| updates := r |> updateConversionHistory (fun prev => entry :: prev)
                               |> conversionFinally;
                  suspended := None;
                  clicked := Some a |}
      | Throw err =>
          Some (r |> conversionCatch err |> conversionFinally |> finished)
      end
  | AwaitConvert _ _ _, ConvertSettled (Throw err) _ =>
      Some (r |> conversionCatch err |> conversionFinally |> finished)
  | _, _ => None
  end.

(** ** The component in the browser *)

(** The rendered state, the storage, the handlers suspended at an
    [await] (by invocation number) and the files saved so far, most
    recent first. *)
Record World := {
  ui : Session;
  localStorage : LocalStorage;
  pending : gmap nat Task;
  nextTask : nat;
  saved : list Download
}.

(** Render after a stretch of handler code and file what it left. *)
Definition land (w : World) (x : Stretch) (others : gmap nat Task) (tid next : nat) : World :=
  let '(s, ls) := commit (ui w) (updates x) (localStorage w) in
  {| ui := s;
     localStorage := ls;
     pending := match suspended x with
                | Some t => <[tid := t]> others
                | None => others
                end;
     nextTask := next;
     saved := match clicked x with
              | Some a => a :: saved w
              | None => saved w
              end |}.

(** A handler that runs to completion. *)
Definition sync (w : World) (r : Update) : World :=
  land w (finished r) (pending w) (nextTask w) (nextTask w).

(** A call of an asynchronous handler: it runs to its first [await]. *)
Definition spawn (w : World) (x : Stretch) : World :=
  land w x (pending w) (nextTask w) (S (nextTask w)).

(** The awaited call of invocation [tid] settles and the handler goes on. *)
Definition settle (w : World) (tid : nat) (st : Settlement) : option World :=
  match pending w !! tid with
  | Some t =>
      match resume t st (begin (ui w)) with
      | Some x => Some (land w x (delete tid (pending w)) tid (nextTask w))
      | None => None
      end
  | None => None
  end.

(** [onActivate(code)] and the value it returns to the modal. *)
Definition activateSubscription (code : string) (w : World) : World * bool :=
  let '(r, success) := handleActivateSubscription code (ui w) (begin (ui w)) in
  (sync w r, success).

(** What can happen to a mounted component: the user acts through one
    of the callbacks the component hands to its children, or an awaited
    call settles. *)
Inductive Event :=
| FileSelect (file : option File)
| RenameFile (newName : string)
| ConversionSelect (targetFormat : ConversionSuggestion)
| Reset
| Login (now clockChange : Z)
| Logout
| SettingsChange (newSettings : Settings)
| ActivateSubscription (code : string)
| ProfileClick
| ProfileClose
| UpgradeClick
| SubscriptionClose
| Settle (tid : nat) (st : Settlement).

Definition step (w : World) (e : Event) : option World :=
  let r := begin (ui w) in
  match e with
  | FileSelect file => Some (spawn w (handleFileSelect file r))
  | RenameFile newName => Some (sync w (handleRenameFile newName (ui w) r))
  | ConversionSelect targetFormat =>
      Some (spawn w (handleConversionSelect targetFormat (ui w) r))
  | Reset => Some (sync w (handleReset r))
  | Login now clockChange =>
      Some (sync w (handleLogin now clockChange (localStorage w) r))
  | Logout => Some (sync w (handleLogout r))
  | SettingsChange newSettings => Some (sync w (handleSettingsChange newSettings (ui w) r))
  | ActivateSubscription code => Some (fst (activateSubscription code w))
  | ProfileClick => Some (sync w (r |> setIsProfileOpen true))
  | ProfileClose => Some (sync w (r |> setIsProfileOpen false))
  | UpgradeClick => Some (sync w (r |> setIsSubscriptionModalOpen true))
  | SubscriptionClose => Some (sync w (handleSubscriptionClose (ui w) r))
  | Settle tid st => settle w tid st
  end.

Fixpoint run (w : World) (es : list Event) : option World :=
  match es with
  | [] => Some w
  | e :: es =>
      match step w e with
      | Some w' => run w' es
      | None => None
      end
  end.

(** The first render and its effects (lines 42-69 and 218-222, in the
    order they are declared), then the render of what the load effect
    queued. *)
Definition mount (now : Z) (ls : LocalStorage) : World :=
  let r := loadEffect now ls (begin initialSession) in
  let ls := persistUserEffect initialSession ls in
  let ls := persistHistoryEffect initialSession ls in
  let '(s, ls) := commit initialSession r ls in
  {| ui := s; localStorage := ls; pending := ∅; nextTask := 0; saved := [] |}.

(** ** Sample data *)

Module Sample.

Definition alex (sub : Subscription) (ends : option Z) : User :=
  {| name := "Alex Rider";
     subscription := sub;
     trialEndsAt := ends;
     settings := {| darkMode := true; notifications := false |} |}.

Definition pdf : ConversionSuggestion :=
  {| cs_format := "PDF"; cs_extension := ".pdf" |}.

Definition report : File :=
  {| file_name := "report.docx";
     file_type := "application/vnd.openxmlformats-officedocument.wordprocessingml.document";
     lastModified := 1700000000000;
     file_bytes := [80; 75; 3; 4]%N |}.

Definition photo : File :=
  {| file_name := "photo.png";
     file_type := "image/png";
     lastModified := 1700000000001;
     file_bytes := [137; 80; 78; 71]%N |}.

Definition scanned : ScanResult :=
  {| status := clean;
     threatName := None;
     scannedAt := "2024-01-01T00:00:00.000Z";
     engineVersion := "1.0" |}.

Definition docx : AnalysisResult :=
  TypeFile {| fileType := "Word Document";
              extension := ".docx";
              fa_description := "A word processing document";
              commonUses := ["Reports"];
              potentialRisks := ["Macros"];
              fa_conversionSuggestions := [pdf] |}.

Definition png : AnalysisResult :=
  TypeImage {| format := "PNG";
               ia_description := "A photograph";
               tags := ["photo"];
               editSuggestions := ["Crop"];
               ia_conversionSuggestions := [] |}.

Definition converted : ConversionResult :=
  {| content := "%PDF-1.4"; isBinary := false; mimeType := "application/pdf" |}.

(** A browser as these samples consult it: their text is ASCII, which
    [toLowerCase] lowers as [Js.asciiLowercase] does, and their content
    is not base64. *)
Definition browser : Browser :=
  {| atob := fun _ => Throw (ErrorObject "The string to be decoded is not correctly encoded.");
     toLowerCase := Js.asciiLowercase;
     randomUUID := "8c5f2d1e-0000-4000-8000-000000000001";
     toISOString := "2024-01-01T00:00:05.000Z" |}.

(** The same browser a minute later, with the next identifier drawn. *)
Definition browserLater : Browser :=
  {| atob := atob browser;
     toLowerCase := toLowerCase browser;
     randomUUID := "1f0e9a77-0000-4000-8000-000000000002";
     toISOString := "2024-01-01T00:01:05.000Z" |}.

(** A session with a Pro user logged in, as it stands after a render. *)
Definition loggedIn (u : User) : World :=
  {| ui := with_currentUser (Some u) initialSession;
     localStorage := {| filecraft_user := Some u; filecraft_history := Some [] |};
     pending := ∅;
     nextTask := 0;
     saved := [] |}.

(** The same session once [report] has been scanned and analysed. *)
Definition analysed (u : User) : World :=
  {| ui := initialSession |> with_currentUser (Some u)
                          |> with_selectedFile (Some report)
                          |> with_scanResult (Some scanned)
                          |> with_analysisResult (Some docx);
     localStorage := {| filecraft_user := Some u; filecraft_history := Some [] |};
     pending := ∅;
     nextTask := 1;
     saved := [] |}.

(** A conversion of [photo] that waits for [convertFileContent]. *)
Definition converting (u : User) : World :=
  {| ui := initialSession |> with_currentUser (Some u)
                          |> with_selectedFile (Some photo)
                          |> with_scanResult (Some scanned)
                          |> with_analysisResult (Some png)
                          |> with_isLoading true;
     localStorage := {| filecraft_user := Some u; filecraft_history := Some [] |};
     pending := {[ 1%nat := AwaitConvert png photo pdf ]};
     nextTask := 2;
     saved := [] |}.

End Sample.

(** ** The last write to the analysis result

    What an event writes to [analysisResult], whichever invocation it
    belongs to: a selection and a reset clear it, an analysis that
    resolves stores its result, and nothing else touches it. *)
Definition analysisWritten (e : Event) (stored : option AnalysisResult)
    : option AnalysisResult :=
  match e with
  | FileSelect (Some _) => None
  | Reset => None
  | Settle _ (AnalyzeSettled (Return result)) => Some result
  | _ => stored
  end.

Definition lastAnalysisWritten (es : list Event) (stored : option AnalysisResult)
    : option AnalysisResult :=
  fold_left (fun stored e => analysisWritten e stored) es stored.

(** ** The identifiers drawn

    The identifier an event makes the component draw from
    [crypto.randomUUID()]: line 146 is reached when the content
    conversion of a pending conversion resolves and its blob is made. *)
Definition drawnUUID (e : Event) : option string :=
  match e with
  | Settle _ (ConvertSettled (Return conversionResult) browser) =>
      match makeBlob browser conversionResult with
      | Return _ => Some (randomUUID browser)
      | Throw _ => None
      end
  | _ => None
  end.

(** The identifiers drawn over a sequence of events, the last one first. *)
Definition drawnUUIDs (es : list Event) : list string :=
  rev (omap drawnUUID es).

(** ** What the component shows and keeps

    Line 214: whether the proofreader is offered for the selected file.
    With no file the optional chains give [undefined], which is falsy. *)
Definition isTextFile (s : Session) : bool :=
  match selectedFile s with
  | Some selectedFile =>
      Js.startsWith (file_type selectedFile) "text/"
      || Js.endsWith (file_name selectedFile) ".md"
      || Js.endsWith (file_name selectedFile) ".txt"
  | None => false
  end.

(** The storage holds what the state holds: the user shown (no record
    when nobody is logged in) and the history shown. *)
Definition synced (w : World) : Prop :=
  filecraft_user (localStorage w) = currentUser (ui w)
  /\ filecraft_history (localStorage w) = Some (conversionHistory (ui w)).

(** A Pro user has no trial end, a trial or expired user has one. *)
Definition trialShape (u : User) : Prop :=
  subscription u = Pro <-> trialEndsAt u = None.

Definition shaped (w : World) : Prop :=
  forall u, currentUser (ui w) = Some u -> trialShape u.

(** An update whose flag is down has left the user, or the history, as
    it was at the render the handler started from. *)
Definition honest (s : Session) (r : Update) : Prop :=
  (userChanged r = false -> currentUser (state r) = currentUser s)
  /\ (historyChanged r = false -> conversionHistory (state r) = conversionHistory s).

(** The handler of invocation [tid] is no longer waiting. *)
Definition finishedAt (w : World) (tid : nat) : Prop := pending w !! tid = None.

(** * Properties *)

(** ** Renders *)

Section Render.

Implicit Types (s before : Session) (r : Update) (ls : LocalStorage) (w : World).

(** The effect on the subscription modal touches that flag alone. *)
Lemma modalEffect_flag before s :
  exists m, modalEffect before s = with_isSubscriptionModalOpen m s.
Proof.
  unfold modalEffect, expiredEffect.
  destruct (bool_decide _); [| destruct (isSubscriptionExpired s)];
    first [ by exists true | exists (isSubscriptionModalOpen s); by destruct s ].
Qed.

Lemma modalEffect_same s : modalEffect s s = s.
Proof. unfold modalEffect. by rewrite bool_decide_eq_true_2. Qed.

(** While the user stays the same, so do the modal and every other field. *)
Lemma modalEffect_user before s :
  currentUser s = currentUser before -> modalEffect before s = s.
Proof.
  intros E. unfold modalEffect, isSubscriptionExpired.
  by rewrite E, bool_decide_eq_true_2.
Qed.

Lemma persistEffects_clean r ls :
  userChanged r = false -> historyChanged r = false -> persistEffects r ls = ls.
Proof. unfold persistEffects. by intros -> ->. Qed.

(** A handler that queues nothing leaves the component as it is. *)
Lemma sync_begin w : sync w (begin (ui w)) = w.
Proof.
  unfold sync, land, commit. simpl.
  rewrite modalEffect_same. by destruct w as [? [] ? ? ?].
Qed.

(** A handler that stopped at an [await] is found under its number. *)
Lemma land_awaiting w (x : Stretch) (others : gmap nat Task) (tid next : nat) (t : Task) :
  suspended x = Some t -> pending (land w x others tid next) !! tid = Some t.
Proof. intros E. unfold land, commit. simpl. rewrite E. apply lookup_insert_eq. Qed.

End Render.

(** The fields of a state after a render, read off the updates. *)
Ltac rendered :=
  unfold spawn, sync, land, commit; cbn [ui localStorage pending nextTask saved];
  repeat match goal with
    | |- context [modalEffect ?b ?s] =>
        let m := fresh "m" in
        let E := fresh "E" in
        destruct (modalEffect_flag b s) as [m E]; rewrite E; clear E
    end.

(** Resume the handler that the last step suspended on task [t]. *)
Ltac started t :=
  rewrite (land_awaiting _ _ _ _ _ t) by reflexivity; cbn [resume].

(** ** Activation of a subscription *)

(** C3: for a logged-in user, the code PRO-YEARLY-2024 makes the user a
    Pro user without a trial end (name and settings kept) and returns
    true; any other code returns false and leaves everything, the user
    included, exactly as it was.  Nothing is thrown: the handler is a
    total function. *)
Theorem activate_subscription_code (w : World) (u : User) :
  currentUser (ui w) = Some u ->
  exists w',
    currentUser (ui w') =
      Some {| name := name u; subscription := Pro;
              trialEndsAt := None; settings := settings u |}
    /\ forall code,
         activateSubscription code w =
           if bool_decide (code = "PRO-YEARLY-2024") then (w', true) else (w, false).
Proof.
  intros Hu. eexists. split; cycle 1.
  - intros code. unfold activateSubscription, handleActivateSubscription.
    rewrite Hu. destruct (bool_decide _); cbn iota.
    + reflexivity.
    + by rewrite sync_begin.
  - by rendered.
Qed.

Lemma activate_subscription_code_witness :
  let w := Sample.loggedIn (Sample.alex FreeTrial (Some 1700000000000)) in
  currentUser (ui w) = Some (Sample.alex FreeTrial (Some 1700000000000))
  /\ exists w',
       currentUser (ui w') = Some (Sample.alex Pro None)
       /\ activateSubscription "PRO-YEARLY-2024" w = (w', true)
       /\ activateSubscription "pro-yearly-2024" w = (w, false).
Proof.
  split; [reflexivity |].
  destruct (activate_subscription_code
              (Sample.loggedIn (Sample.alex FreeTrial (Some 1700000000000)))
              (Sample.alex FreeTrial (Some 1700000000000))
              eq_refl)
    as (w' & Huser & Hcode).
  exists w'. split; [exact Huser |].
  split; [exact (Hcode "PRO-YEARLY-2024") | exact (Hcode "pro-yearly-2024")].
Defined.

(** C9: with nobody logged in, activation returns false and changes
    nothing, whatever the code, the designated one included. *)
Theorem activate_subscription_logged_out (w : World) (code : string) :
  currentUser (ui w) = None ->
  activateSubscription code w = (w, false)
  /\ activateSubscription "PRO-YEARLY-2024" w = (w, false).
Proof.
  intros Hu. unfold activateSubscription, handleActivateSubscription.
  rewrite Hu. destruct (bool_decide (code = _)); simpl;
    by rewrite sync_begin.
Qed.

Lemma activate_subscription_logged_out_witness :
  let w := mount 1700000000000 {| filecraft_user := None; filecraft_history := None |} in
  currentUser (ui w) = None
  /\ activateSubscription "anything" w = (w, false)
  /\ activateSubscription "PRO-YEARLY-2024" w = (w, false).
Proof.
  split; [reflexivity |].
  apply (activate_subscription_logged_out
           (mount 1700000000000 {| filecraft_user := None; filecraft_history := None |})
           "anything").
  reflexivity.
Defined.

(** ** Reset *)

(** C8: reset clears the selected file, the analysis, the scan, the
    scripts, the error and the loading flag, and leaves the user and the
    history as they are, in the state and in local storage. *)
Theorem reset_clears_transient_state (w : World) :
  exists w',
    step w Reset = Some w'
    /\ selectedFile (ui w') = None
    /\ analysisResult (ui w') = None
    /\ scanResult (ui w') = None
    /\ scripts (ui w') = None
    /\ error (ui w') = None
    /\ isLoading (ui w') = false
    /\ currentUser (ui w') = currentUser (ui w)
    /\ conversionHistory (ui w') = conversionHistory (ui w)
    /\ localStorage w' = localStorage w.
Proof.
  eexists. split; [reflexivity |].
  rendered. by repeat split.
Qed.

(** ** The trial check at load time *)

Section TrialCheck.

Variables (now : Z) (user : User).

(** A trial whose end is a non-zero time in the past expires. *)
Lemma resolve_trial_over (t : Z) :
  subscription user = FreeTrial -> trialEndsAt user = Some t ->
  t <> 0 -> now > t ->
  resolveSubscriptionState now user
  = {| name := name user; subscription := Expired;
       trialEndsAt := trialEndsAt user; settings := settings user |}.
Proof.
  intros Hs Ht Hz Hgt. unfold resolveSubscriptionState.
  rewrite Hs, Ht. simpl.
  destruct (Z.eqb_spec t 0); [done |].
  destruct (Z.ltb_spec t now); [done | lia].
Qed.

(** A user who is not on a trial, or whose trial has no end or an end
    not yet passed, is returned as is. *)
Lemma resolve_unchanged :
  subscription user <> FreeTrial
  \/ trialEndsAt user = None
  \/ (exists t, trialEndsAt user = Some t /\ now <= t) ->
  resolveSubscriptionState now user = user.
Proof.
  unfold resolveSubscriptionState.
  intros [Hs | [Ht | (t & Ht & Hle)]].
  - by rewrite bool_decide_eq_false_2.
  - rewrite Ht. simpl. by rewrite andb_false_r.
  - rewrite Ht. simpl. destruct (Z.ltb_spec t now); [lia |].
    by rewrite andb_false_r.
Qed.

(** Checking twice at the same time is checking once. *)
Lemma resolve_idempotent :
  resolveSubscriptionState now (resolveSubscriptionState now user)
  = resolveSubscriptionState now user.
Proof.
  unfold resolveSubscriptionState.
  destruct (bool_decide (subscription user = FreeTrial) && _ && _) eqn:E.
  - reflexivity.
  - by rewrite E.
Qed.

End TrialCheck.

(** C4: a trial that ended at time 0 is past at time 1, and the check
    leaves the user on the trial: the test of [trialEndsAt] for presence
    reads the number 0 as absent.  The component mounted over that
    stored user shows them as a trial user. *)
Theorem trial_ended_at_zero_not_expired :
  let user := Sample.alex FreeTrial (Some 0) in
  let now := 1 in
  subscription user = FreeTrial
  /\ Js.gt now (trialEndsAt user) = true
  /\ resolveSubscriptionState now user = user
  /\ currentUser (ui (mount now {| filecraft_user := Some user;
                                   filecraft_history := None |})) = Some user.
Proof. by repeat split. Qed.

(** ** Logout and login *)

(** Logging out removes the stored user: the persist effect runs on the
    change of [currentUser] to [null]. *)
Lemma logout_removes_stored_user (w : World) (u : User) :
  currentUser (ui w) = Some u ->
  exists w', step w Logout = Some w'
             /\ currentUser (ui w') = None
             /\ filecraft_user (localStorage w') = None
             /\ conversionHistory (ui w') = conversionHistory (ui w)
             /\ filecraft_history (localStorage w') = filecraft_history (localStorage w).
Proof.
  intros Hu. eexists. split; [reflexivity |].
  rendered. unfold persistEffects, handleLogout. simpl. rewrite Hu. simpl.
  by repeat split.
Qed.

(** With no stored user, login creates the default trial user. *)
Lemma login_without_stored_user (w : World) (now clockChange : Z) :
  filecraft_user (localStorage w) = None ->
  exists w', step w (Login now clockChange) = Some w'
             /\ currentUser (ui w')
                = Some (Sample.alex FreeTrial (Some (now + threeDays - clockChange))).
Proof.
  intros Hs. eexists. split; [reflexivity |].
  rendered. unfold handleLogin. by rewrite Hs.
Qed.

(** C1: a Pro user logs out and logs in again in the same browser.  The
    logout removes the stored user record, so the login finds none and
    creates a new trial user; the history is kept. *)
Theorem logout_login_loses_account :
  let user := Sample.alex Pro None in
  let w := Sample.loggedIn user in
  exists w1 w2,
    step w Logout = Some w1
    /\ filecraft_user (localStorage w) = Some user
    /\ filecraft_user (localStorage w1) = None
    /\ step w1 (Login 1700000000000 0) = Some w2
    /\ currentUser (ui w2) = Some (Sample.alex FreeTrial (Some 1700259200000))
    /\ currentUser (ui w2) <> currentUser (ui w)
    /\ conversionHistory (ui w2) = conversionHistory (ui w)
    /\ filecraft_history (localStorage w2) = filecraft_history (localStorage w).
Proof.
  do 2 eexists. split; [reflexivity |].
  split; [reflexivity |]. split; [reflexivity |].
  split; [reflexivity |]. by repeat split.
Qed.

(** ** Selecting a file *)

(** C7: when the scan fails, the error message is set, loading is off,
    and neither a scan result nor an analysis result is stored; when the
    scan succeeds and the analysis fails, the error message is set,
    loading is off, the scan result is kept and no analysis result is
    stored.  The history is untouched either way. *)
Theorem file_select_failure (w : World) (file : File) (scan : ScanResult) (err : Thrown) :
  let tid := nextTask w in
  let message := "Failed to process file. The AI model may be unavailable or the scan failed. Please try again later." in
  (exists w',
     run w [FileSelect (Some file); Settle tid (ScanSettled (Throw err))] = Some w'
     /\ error (ui w') = Some message
     /\ isLoading (ui w') = false
     /\ scanResult (ui w') = None
     /\ analysisResult (ui w') = None
     /\ selectedFile (ui w') = Some file
     /\ conversionHistory (ui w') = conversionHistory (ui w)
     /\ localStorage w' = localStorage w)
  /\ (exists w',
     run w [FileSelect (Some file); Settle tid (ScanSettled (Return scan));
            Settle tid (AnalyzeSettled (Throw err))] = Some w'
     /\ error (ui w') = Some message
     /\ isLoading (ui w') = false
     /\ scanResult (ui w') = Some scan
     /\ analysisResult (ui w') = None
     /\ selectedFile (ui w') = Some file
     /\ conversionHistory (ui w') = conversionHistory (ui w)
     /\ localStorage w' = localStorage w).
Proof.
  intros tid message. split.
  - cbn [run step]. unfold settle, spawn.
    started (AwaitScan file).
    eexists. split; [reflexivity |].
    rendered. by repeat split.
  - cbn [run step]. unfold settle at 1, spawn.
    started (AwaitScan file). unfold settle.
    started (AwaitAnalyze file (status scan)).
    eexists. split; [reflexivity |].
    rendered. by repeat split.
Qed.

(** ** Converting a file *)

Section Conversion.

Variables (w : World) (a : AnalysisResult) (f : File) (t : ConversionSuggestion).
Hypothesis (Ha : analysisResult (ui w) = Some a).
Hypothesis (Hf : selectedFile (ui w) = Some f).

(** With an analysis and a file at hand, the handler starts. *)
Lemma conversion_starts :
  handleConversionSelect t (ui w) (begin (ui w))
  = begin (ui w) |> setScripts None |> setError None |> setIsLoading true
      |> awaiting (AwaitScripts (sourceFormatOf a) a f t).
Proof. unfold handleConversionSelect. by rewrite Ha, Hf. Qed.

End Conversion.

(** Each step puts in front of the history's identifiers the identifier
    it draws, if any. *)
Lemma step_history_ids (w w' : World) (e : Event) :
  step w e = Some w' ->
  id <$> conversionHistory (ui w')
  = (option_list (drawnUUID e) ++ (id <$> conversionHistory (ui w)))%list.
Proof.
  destruct e; cbn [step drawnUUID option_list app].
  - intros [= <-]. destruct file; by rendered.
  - intros [= <-]. unfold handleRenameFile.
    destruct (selectedFile (ui w)); by rendered.
  - intros [= <-]. unfold handleConversionSelect.
    destruct (analysisResult (ui w)), (selectedFile (ui w)); by rendered.
  - intros [= <-]. by rendered.
  - intros [= <-]. unfold handleLogin.
    destruct (filecraft_user (localStorage w)); by rendered.
  - intros [= <-]. by rendered.
  - intros [= <-]. unfold handleSettingsChange.
    destruct (currentUser (ui w)); by rendered.
  - intros [= <-]. unfold activateSubscription, handleActivateSubscription.
    destruct (bool_decide _), (currentUser (ui w)); by rendered.
  - intros [= <-]. by rendered.
  - intros [= <-]. by rendered.
  - intros [= <-]. by rendered.
  - intros [= <-]. unfold handleSubscriptionClose.
    destruct (isSubscriptionExpired (ui w)); by rendered.
  - unfold settle. destruct (pending w !! tid) as [t |]; [| done].
    destruct t, st as [[] | [] | [] | [] ?]; cbn [resume]; try done;
      try (intros [= <-]; by rendered).
    destruct (makeBlob _ _); intros [= <-]; by rendered.
Qed.

(** Over a run, the identifiers of the history are the identifiers
    drawn, the last one first, in front of those it started with. *)
Lemma run_history_ids (es : list Event) (w w' : World) :
  run w es = Some w' ->
  id <$> conversionHistory (ui w')
  = (drawnUUIDs es ++ (id <$> conversionHistory (ui w)))%list.
Proof.
  unfold drawnUUIDs. revert w. induction es as [| e es IH]; intros w; cbn [run].
  - by intros [= <-].
  - destruct (step w e) as [w1 |] eqn:Hstep; [| done].
    intros Hrun. rewrite (IH _ Hrun), (step_history_ids _ _ _ Hstep).
    cbn [omap list_omap]. destruct (drawnUUID e) as [u |]; cbn; [| done].
    by rewrite <- app_assoc.
Qed.

(** C5: a conversion that goes through puts exactly one new entry at
    the head of the history (and of the stored history), with the
    analysis result's extension or lower-cased format tag as
    [fromFormat], the target's extension as [toFormat], the current
    time, and as id the identifier drawn from [crypto.randomUUID()] for
    this entry; when script generation, content conversion or the making
    of the blob fails, the history and the storage stay as they were.
    Loading ends either way.  Over any run the ids of the history are
    the identifiers drawn, one per conversion that went through, in
    front of the ids it started with: they are pairwise distinct
    whenever the identifiers drawn are new. *)
Theorem conversion_history_entry
    (w : World) (a : AnalysisResult) (f : File) (t : ConversionSuggestion)
    (generatedScripts : gmap string string) (cr : ConversionResult) (b : Browser)
    (err : Thrown) :
  analysisResult (ui w) = Some a ->
  selectedFile (ui w) = Some f ->
  let tid := nextTask w in
  let entry := {| id := randomUUID b;
                  originalName := file_name f;
                  fromFormat := match a with
                                | TypeFile r => extension r
                                | TypeImage r => "." +:+ toLowerCase b (format r)
                                end;
                  toFormat := cs_extension t;
                  timestamp := toISOString b |} in
  let history := conversionHistory (ui w) in
  (exists w',
     run w [ConversionSelect t;
            Settle tid (ScriptsSettled (Return generatedScripts));
            Settle tid (ConvertSettled (Return cr) b)] = Some w'
     /\ isLoading (ui w') = false
     /\ match makeBlob b cr with
        | Return _ =>
            conversionHistory (ui w') = entry :: history
            /\ filecraft_history (localStorage w') = Some (entry :: history)
            /\ error (ui w') = None
        | Throw _ =>
            conversionHistory (ui w') = history
            /\ localStorage w' = localStorage w
            /\ is_Some (error (ui w'))
        end)
  /\ (exists w',
     run w [ConversionSelect t; Settle tid (ScriptsSettled (Throw err))] = Some w'
     /\ isLoading (ui w') = false
     /\ conversionHistory (ui w') = history
     /\ localStorage w' = localStorage w
     /\ is_Some (error (ui w')))
  /\ (exists w',
     run w [ConversionSelect t;
            Settle tid (ScriptsSettled (Return generatedScripts));
            Settle tid (ConvertSettled (Throw err) b)] = Some w'
     /\ isLoading (ui w') = false
     /\ conversionHistory (ui w') = history
     /\ localStorage w' = localStorage w
     /\ is_Some (error (ui w')))
  /\ (forall es w',
        run w es = Some w' ->
        id <$> conversionHistory (ui w') = (drawnUUIDs es ++ (id <$> history))%list
        /\ (NoDup (id <$> history) ->
            NoDup (drawnUUIDs es) ->
            (forall u, u ∈ drawnUUIDs es -> u ∉ id <$> history) ->
            NoDup (id <$> conversionHistory (ui w')))).
Proof.
  intros Ha Hf tid entry history.
  pose proof (conversion_starts w a f t Ha Hf) as Hstart.
  split; [| split; [| split]].
  - cbn [run step]. rewrite Hstart. unfold settle at 1, spawn.
    started (AwaitScripts (sourceFormatOf a) a f t). unfold settle.
    started (AwaitConvert a f t).
    destruct (makeBlob b cr) as [blob | e];
      (eexists; split; [reflexivity |]); rendered; by repeat split.
  - cbn [run step]. rewrite Hstart. unfold settle, spawn.
    started (AwaitScripts (sourceFormatOf a) a f t).
    eexists; split; [reflexivity |]. rendered. by repeat split.
  - cbn [run step]. rewrite Hstart. unfold settle at 1, spawn.
    started (AwaitScripts (sourceFormatOf a) a f t). unfold settle.
    started (AwaitConvert a f t).
    eexists; split; [reflexivity |]. rendered. by repeat split.
  - intros es w' Hrun. rewrite (run_history_ids es w w' Hrun).
    split; [reflexivity |]. intros Hold Hnew Hfresh.
    apply NoDup_app. by repeat split.
Qed.

Lemma conversion_history_entry_witness :
  let w := Sample.analysed (Sample.alex Pro None) in
  let once := [ConversionSelect Sample.pdf;
               Settle 1 (ScriptsSettled (Return ∅));
               Settle 1 (ConvertSettled (Return Sample.converted) Sample.browser)] in
  let again := [ConversionSelect Sample.pdf;
                Settle 2 (ScriptsSettled (Return ∅));
                Settle 2 (ConvertSettled (Return Sample.converted) Sample.browserLater)] in
  analysisResult (ui w) = Some Sample.docx
  /\ selectedFile (ui w) = Some Sample.report
  /\ (exists w',
        run w once = Some w'
        /\ conversionHistory (ui w')
           = [ {| id := "8c5f2d1e-0000-4000-8000-000000000001";
                  originalName := "report.docx";
                  fromFormat := ".docx";
                  toFormat := ".pdf";
                  timestamp := "2024-01-01T00:00:05.000Z" |} ])
  /\ (exists w',
        run w (once ++ again)%list = Some w'
        /\ id <$> conversionHistory (ui w')
           = [ "1f0e9a77-0000-4000-8000-000000000002";
               "8c5f2d1e-0000-4000-8000-000000000001" ]
        /\ NoDup (id <$> conversionHistory (ui w'))).
Proof.
  split; [reflexivity |]. split; [reflexivity |].
  destruct (conversion_history_entry
              (Sample.analysed (Sample.alex Pro None)) Sample.docx Sample.report
              Sample.pdf ∅ Sample.converted Sample.browser OtherValue
              eq_refl eq_refl)
    as [(w1 & Hrun & _ & Hhistory & _) (_ & _ & Hids)].
  split; [exists w1; split; [exact Hrun | exact Hhistory] |].
  eexists. split; [vm_compute; reflexivity |].
  edestruct (Hids [ConversionSelect Sample.pdf;
                  Settle 1 (ScriptsSettled (Return ∅));
                  Settle 1 (ConvertSettled (Return Sample.converted) Sample.browser);
                  ConversionSelect Sample.pdf;
                  Settle 2 (ScriptsSettled (Return ∅));
                  Settle 2 (ConvertSettled (Return Sample.converted) Sample.browserLater)])
    as [Heq Hnodup]; [vm_compute; reflexivity |].
  split; [exact Heq |]. apply Hnodup.
  - apply NoDup_nil_2.
  - apply (bool_decide_unpack _); vm_compute; exact I.
  - intros u _. apply not_elem_of_nil.
Defined.

Section Strings.

Variable c : ascii.

Lemma strlen_nonneg s : 0 <= Js.strlen s.
Proof. unfold Js.strlen. lia. Qed.

Lemma length_append (s t : string) :
  String.length (s +:+ t) = (String.length s + String.length t)%nat.
Proof. induction s as [| a s IH]; simpl; [done | by rewrite IH]. Qed.

Lemma includes_at pre rest : Js.includes (pre +:+ String c rest) c = true.
Proof.
  induction pre as [| a pre IH]; simpl.
  - by rewrite Ascii.eqb_refl.
  - rewrite IH. by destruct (Ascii.eqb a c).
Qed.

(** A string without [c] has last index [-1]; otherwise it splits
    around its last [c], whose index is the length of what precedes. *)
Lemma lastIndexOf_split s :
  (Js.includes s c = false /\ Js.lastIndexOf s c = -1)
  \/ (exists pre rest,
        s = pre +:+ String c rest
        /\ Js.includes rest c = false
        /\ Js.lastIndexOf s c = Js.strlen pre).
Proof.
  induction s as [| a s IH]; [by left |].
  cbn [Js.includes Js.lastIndexOf].
  destruct IH as [[Hno Hidx] | (pre & rest & -> & Hrest & Hidx)].
  - rewrite Hno, Hidx. simpl.
    destruct (Ascii.eqb_spec a c) as [-> |]; [right | by left].
    by exists "", s.
  - right. exists (String a pre), rest.
    repeat split; [done |].
    rewrite Hidx. pose proof (strlen_nonneg pre).
    destruct (Z.leb_spec 0 (Js.strlen pre)); [| lia].
    unfold Js.strlen. simpl. lia.
Qed.

Lemma substring_prefix pre rest :
  Js.substring (pre +:+ rest) 0 (Js.strlen pre) = pre.
Proof.
  unfold Js.substring, Js.clamp, Js.strlen.
  rewrite length_append.
  replace (Z.min _ _) with 0 by lia.
  replace (Z.max 0 _ `max` _ - 0) with (Z.of_nat (String.length pre)) by lia.
  rewrite Nat2Z.id. change (Z.to_nat 0) with 0%nat.
  induction pre as [| a pre IH]; simpl.
  - by destruct rest.
  - by rewrite IH.
Qed.

End Strings.

(** The new name is the text before the last dot of the old name, or
    all of it when it has no dot, followed by the extension. *)
Lemma newFileName_split (f : File) (t : ConversionSuggestion) :
  exists baseName,
    newFileName f t = baseName +:+ cs_extension t
    /\ ((Js.includes (file_name f) "." = false /\ baseName = file_name f)
        \/ (exists rest, file_name f = baseName +:+ String "." rest
                         /\ Js.includes rest "." = false)).
Proof.
  unfold newFileName.
  destruct (lastIndexOf_split "." (file_name f))
    as [[Hno _] | (pre & rest & E & Hrest & Hidx)].
  - rewrite Hno. exists (file_name f). split; [done |]. by left.
  - rewrite Hidx, E, includes_at, substring_prefix.
    exists pre. split; [done |]. right. by exists rest.
Qed.

Example report_docx_to_pdf : newFileName Sample.report Sample.pdf = "report.pdf".
Proof. reflexivity. Qed.

(** C6: the file a conversion saves is named by the base name of the
    selected file followed by the target's extension, where the base
    name is the whole name when it has no dot and otherwise what comes
    before its last dot. *)
Theorem conversion_download_name
    (w : World) (a : AnalysisResult) (f : File) (t : ConversionSuggestion)
    (generatedScripts : gmap string string) (cr : ConversionResult) (b : Browser)
    (blob : Blob) :
  analysisResult (ui w) = Some a ->
  selectedFile (ui w) = Some f ->
  makeBlob b cr = Return blob ->
  exists w' baseName,
    run w [ConversionSelect t;
           Settle (nextTask w) (ScriptsSettled (Return generatedScripts));
           Settle (nextTask w) (ConvertSettled (Return cr) b)] = Some w'
    /\ saved w' = {| download := baseName +:+ cs_extension t; href := blob |} :: saved w
    /\ ((Js.includes (file_name f) "." = false /\ baseName = file_name f)
        \/ (exists rest, file_name f = baseName +:+ String "." rest
                         /\ Js.includes rest "." = false)).
Proof.
  intros Ha Hf Hblob.
  destruct (newFileName_split f t) as (baseName & Hname & Hbase).
  cbn [run step]. rewrite (conversion_starts w a f t Ha Hf).
  unfold settle at 1, spawn.
  started (AwaitScripts (sourceFormatOf a) a f t). unfold settle.
  started (AwaitConvert a f t). rewrite Hblob, Hname.
  eexists. exists baseName. split; [reflexivity |]. by split.
Qed.

Lemma conversion_download_name_witness :
  let w := Sample.analysed (Sample.alex Pro None) in
  analysisResult (ui w) = Some Sample.docx
  /\ selectedFile (ui w) = Some Sample.report
  /\ makeBlob Sample.browser Sample.converted
     = Return {| blob_parts := Text "%PDF-1.4"; blob_type := "application/pdf" |}
  /\ exists w' baseName,
       run w [ConversionSelect Sample.pdf;
              Settle 1 (ScriptsSettled (Return ∅));
              Settle 1 (ConvertSettled (Return Sample.converted) Sample.browser)] = Some w'
       /\ saved w' = [ {| download := baseName +:+ ".pdf";
                          href := {| blob_parts := Text "%PDF-1.4";
                                     blob_type := "application/pdf" |} |} ]
       /\ ((Js.includes "report.docx" "." = false /\ baseName = "report.docx")
           \/ (exists rest, "report.docx" = baseName +:+ String "." rest
                            /\ Js.includes rest "." = false)).
Proof.
  split; [reflexivity |]. split; [reflexivity |]. split; [reflexivity |].
  apply (conversion_download_name
           (Sample.analysed (Sample.alex Pro None)) Sample.docx Sample.report
           Sample.pdf ∅ Sample.converted Sample.browser _ eq_refl eq_refl eq_refl).
Defined.

(** ** The source format of a history entry *)

Example asciiLowercase_PNG : Js.asciiLowercase "PNG" = "png".
Proof. reflexivity. Qed.

(** ASCII lowercase keeps the length and is idempotent. *)
Lemma asciiLowercase_length s : String.length (Js.asciiLowercase s) = String.length s.
Proof. induction s as [| c s IH]; simpl; congruence. Qed.

Lemma lower_lower c : Js.lower (Js.lower c) = Js.lower c.
Proof. destruct c as [[] [] [] [] [] [] [] []]; reflexivity. Qed.

Lemma asciiLowercase_idempotent s :
  Js.asciiLowercase (Js.asciiLowercase s) = Js.asciiLowercase s.
Proof. induction s as [| c s IH]; simpl; [done | by rewrite lower_lower, IH]. Qed.

(** C10: when a conversion goes through, the entry it adds has as
    [fromFormat] a dot followed by what [toLowerCase] makes of the
    format of an image analysis, which for a format of ASCII characters
    is the format with [A]-[Z] turned into [a]-[z], and the extension of
    a file analysis as it is. *)
Theorem history_from_format
    (w : World) (tid : nat) (a : AnalysisResult) (f : File) (t : ConversionSuggestion)
    (cr : ConversionResult) (b : Browser) (blob : Blob) :
  pending w !! tid = Some (AwaitConvert a f t) ->
  makeBlob b cr = Return blob ->
  exists w' entry,
    settle w tid (ConvertSettled (Return cr) b) = Some w'
    /\ conversionHistory (ui w') = entry :: conversionHistory (ui w)
    /\ match a with
       | TypeImage r =>
           fromFormat entry = String "." (toLowerCase b (format r))
           /\ (Js.lowersAscii (toLowerCase b) ->
               Js.isAscii (format r) = true ->
               fromFormat entry = String "." (Js.asciiLowercase (format r)))
       | TypeFile r => fromFormat entry = extension r
       end.
Proof.
  intros Hp Hblob. unfold settle. rewrite Hp. cbn [resume]. rewrite Hblob.
  do 2 eexists. split; [reflexivity |].
  rendered. split; [reflexivity |]. destruct a as [r | r]; [reflexivity |].
  split; [reflexivity |]. intros Hlower Hascii. cbn. by rewrite (Hlower _ Hascii).
Qed.

Lemma history_from_format_witness :
  let w := Sample.converting (Sample.alex Pro None) in
  pending w !! 1%nat = Some (AwaitConvert Sample.png Sample.photo Sample.pdf)
  /\ makeBlob Sample.browser Sample.converted
     = Return {| blob_parts := Text "%PDF-1.4"; blob_type := "application/pdf" |}
  /\ Js.lowersAscii (toLowerCase Sample.browser)
  /\ Js.isAscii "PNG" = true
  /\ exists w' entry,
       settle w 1 (ConvertSettled (Return Sample.converted) Sample.browser) = Some w'
       /\ conversionHistory (ui w') = entry :: conversionHistory (ui w)
       /\ fromFormat entry = ".png".
Proof.
  split; [reflexivity |]. split; [reflexivity |].
  assert (Js.lowersAscii (toLowerCase Sample.browser)) as Hlower
    by (intros s _; reflexivity).
  split; [exact Hlower |]. split; [reflexivity |].
  destruct (history_from_format
              (Sample.converting (Sample.alex Pro None)) 1 Sample.png Sample.photo
              Sample.pdf Sample.converted Sample.browser _ eq_refl eq_refl)
    as (w' & entry & Hsettle & Hhistory & _ & Hfrom).
  exists w', entry. split; [exact Hsettle |]. split; [exact Hhistory |].
  exact (Hfrom Hlower eq_refl).
Defined.

(** ** Overlapping selections *)

(** Each step writes to the analysis result what [analysisWritten] says. *)
Lemma step_analysisResult (w w' : World) (e : Event) :
  step w e = Some w' ->
  analysisResult (ui w') = analysisWritten e (analysisResult (ui w)).
Proof.
  destruct e; cbn [step analysisWritten].
  - intros [= <-]. destruct file; by rendered.
  - intros [= <-]. unfold handleRenameFile.
    destruct (selectedFile (ui w)); by rendered.
  - intros [= <-]. unfold handleConversionSelect.
    destruct (analysisResult (ui w)) eqn:Ea, (selectedFile (ui w));
      rendered; by rewrite ?Ea.
  - intros [= <-]. by rendered.
  - intros [= <-]. unfold handleLogin.
    destruct (filecraft_user (localStorage w)); by rendered.
  - intros [= <-]. by rendered.
  - intros [= <-]. unfold handleSettingsChange.
    destruct (currentUser (ui w)); by rendered.
  - intros [= <-]. unfold activateSubscription, handleActivateSubscription.
    destruct (bool_decide _), (currentUser (ui w)); by rendered.
  - intros [= <-]. by rendered.
  - intros [= <-]. by rendered.
  - intros [= <-]. by rendered.
  - intros [= <-]. unfold handleSubscriptionClose.
    destruct (isSubscriptionExpired (ui w)); by rendered.
  - unfold settle. destruct (pending w !! tid) as [t |]; [| done].
    destruct t, st as [[] | [] | [] | [] ?]; cbn [resume]; try done;
      try (intros [= <-]; by rendered).
    destruct (makeBlob _ _); intros [= <-]; by rendered.
Qed.

(** C2, as the code has it: after any sequence of events the stored
    analysis result is the one written by the last selection, reset or
    resolved analysis in the sequence, whichever selection that analysis
    was started for.  No completion is discarded: of two overlapping
    selections, the one whose analysis resolves last has its result
    stored. *)
Theorem last_resolved_analysis_is_stored (w w' : World) (es : list Event) :
  run w es = Some w' ->
  analysisResult (ui w') = lastAnalysisWritten es (analysisResult (ui w)).
Proof.
  revert w. induction es as [| e es IH]; intros w; cbn [run].
  - by intros [= <-].
  - destruct (step w e) as [w1 |] eqn:Hstep; [| done].
    intros Hrun. rewrite (IH _ Hrun).
    unfold lastAnalysisWritten. cbn [fold_left].
    by rewrite (step_analysisResult _ _ _ Hstep).
Qed.

Lemma last_resolved_analysis_is_stored_witness :
  let w := Sample.loggedIn (Sample.alex Pro None) in
  let es := [FileSelect (Some Sample.report);
             Settle 0 (ScanSettled (Return Sample.scanned));
             Reset;
             FileSelect (Some Sample.photo);
             Settle 0 (AnalyzeSettled (Return Sample.docx));
             Settle 1 (ScanSettled (Return Sample.scanned));
             Settle 1 (AnalyzeSettled (Return Sample.png))] in
  exists w', run w es = Some w' /\ analysisResult (ui w') = Some Sample.png.
Proof.
  eexists. split; [reflexivity |].
  apply (last_resolved_analysis_is_stored
           (Sample.loggedIn (Sample.alex Pro None)) _
           [FileSelect (Some Sample.report);
            Settle 0 (ScanSettled (Return Sample.scanned));
            Reset;
            FileSelect (Some Sample.photo);
            Settle 0 (AnalyzeSettled (Return Sample.docx));
            Settle 1 (ScanSettled (Return Sample.scanned));
            Settle 1 (AnalyzeSettled (Return Sample.png))]).
  reflexivity.
Defined.

(** C2, as stated, fails: [report] is selected and scanned, the user
    resets and selects [photo] while the analysis of [report] is still
    pending; the analysis of [photo] resolves, then that of [report].
    The late result of the first selection is stored over the second's,
    next to the second file. *)
Lemma stale_analysis_overwrites_newer_selection :
  let w := Sample.loggedIn (Sample.alex Pro None) in
  exists w',
    run w [FileSelect (Some Sample.report);
           Settle 0 (ScanSettled (Return Sample.scanned));
           Reset;
           FileSelect (Some Sample.photo);
           Settle 1 (ScanSettled (Return Sample.scanned));
           Settle 1 (AnalyzeSettled (Return Sample.png));
           Settle 0 (AnalyzeSettled (Return Sample.docx))] = Some w'
    /\ selectedFile (ui w') = Some Sample.photo
    /\ analysisResult (ui w') = Some Sample.docx
    /\ analysisResult (ui w') <> Some Sample.png.
Proof.
  eexists. split; [reflexivity |].
  split; [reflexivity |]. split; [reflexivity |]. discriminate.
Qed.

(** * Further properties of the component *)

(** ** Blobs *)

Section Blob.

Variable byteCharacters : string.

Lemma fillByteNumbers_length (count i : nat) (l : list N) :
  length (fillByteNumbers byteCharacters i count l) = length l.
Proof.
  revert i l. induction count as [| count IH]; intros i l; simpl; [done |].
  by rewrite IH, length_insert.
Qed.

Lemma fillByteNumbers_lookup (count i : nat) (l : list N) (k : nat) :
  (i + count <= length l)%nat ->
  fillByteNumbers byteCharacters i count l !! k
  = if decide (i <= k < i + count)%nat
    then Some (Js.charCodeAt byteCharacters k)
    else l !! k.
Proof.
  revert i l. induction count as [| count IH]; intros i l Hlen; simpl.
  - case_decide; [lia | done].
  - rewrite IH by (rewrite length_insert; lia).
    repeat case_decide; try lia; try done.
    + assert (k = i) as -> by lia. apply list_lookup_insert_eq. lia.
    + apply list_lookup_insert_ne. lia.
Qed.

End Blob.

(** X1: [base64ToBlob] passes on what [atob] throws; otherwise the blob
    has one byte per character of the decoded text, the byte at each
    index being that character's code, below 256, and as type the MIME
    type as [new Blob] keeps it: in ASCII lowercase, or empty when it
    has a character outside U+0020 to U+007E. *)
Theorem base64ToBlob_bytes (atob : string -> Completion string) (base64 mimeType : string) :
  match atob base64 with
  | Throw err => base64ToBlob atob base64 mimeType = Throw err
  | Return byteCharacters =>
      exists byteArray,
        base64ToBlob atob base64 mimeType
        = Return {| blob_parts := Bytes byteArray;
                    blob_type := if Js.inTypeRange mimeType
                                 then Js.asciiLowercase mimeType
                                 else "" |}
        /\ length byteArray = String.length byteCharacters
        /\ forall k a, String.get k byteCharacters = Some a ->
             byteArray !! k = Some (N_of_ascii a) /\ (N_of_ascii a < 256)%N
  end.
Proof.
  unfold base64ToBlob. destruct (atob base64) as [chars | err]; [| done].
  eexists. split; [reflexivity |]. split.
  - by rewrite fillByteNumbers_length, length_replicate.
  - intros k a Hk. split; [| apply N_ascii_bounded].
    assert (k < String.length chars)%nat as Hlt.
    { clear -Hk. revert k Hk. induction chars as [| c s IH]; intros [| k]; simpl; try done; [lia |].
      intros H. apply IH in H. lia. }
    rewrite fillByteNumbers_lookup by (rewrite length_replicate; lia).
    rewrite decide_True by lia. unfold Js.charCodeAt. by rewrite Hk.
Qed.

(** ** Storage and state *)

(** Unfold a step down to the updates of its handler. *)
Ltac handled :=
  unfold activateSubscription, handleRenameFile, handleConversionSelect, handleLogin,
    handleSettingsChange, handleActivateSubscription, handleSubscriptionClose,
    handleFileSelect, handleReset, handleLogout.

Lemma settle_inv (w w' : World) (tid : nat) (st : Settlement) :
  settle w tid st = Some w' ->
  exists t x, pending w !! tid = Some t
              /\ resume t st (begin (ui w)) = Some x
              /\ w' = land w x (delete tid (pending w)) tid (nextTask w).
Proof.
  unfold settle. destruct (pending w !! tid) as [t |]; [| done].
  destruct (resume t st _) as [x |] eqn:Hx; [| done].
  intros [= <-]. exists t, x. repeat split; assumption.
Qed.

(** ** The flags tell the truth *)

Create HintDb honest.

Lemma honest_begin s : honest s (begin s).
Proof. by split. Qed.

Lemma honest_set s f r :
  (forall s', currentUser (f s') = currentUser s') ->
  (forall s', conversionHistory (f s') = conversionHistory s') ->
  honest s r -> honest s (set f r).
Proof.
  intros Hu Hh [Hru Hrh]. split; cbn; intros E.
  - by rewrite Hu, Hru.
  - by rewrite Hh, Hrh.
Qed.

Lemma honest_updateCurrentUser s f r : honest s r -> honest s (updateCurrentUser f r).
Proof.
  intros [Hru Hrh]. split; cbn; [| done].
  intros [E (Hprev & Hnew)%negb_false_iff%andb_true_iff]%orb_false_iff.
  apply bool_decide_eq_true in Hprev, Hnew.
  rewrite Hnew, <- Hprev. by apply Hru.
Qed.

Lemma honest_updateConversionHistory s f r :
  honest s r -> honest s (updateConversionHistory f r).
Proof. intros [Hru Hrh]. by split. Qed.

#[local] Hint Resolve honest_begin honest_updateCurrentUser honest_updateConversionHistory : honest.
#[local] Hint Extern 1 (honest _ (set _ _)) => (apply honest_set; [done | done |]) : honest.

(** Every update of a handler is honest. *)
Ltac honestly :=
  cbn;
  unfold fileSelectFinally, fileSelectCatch, conversionFinally, conversionCatch,
    setSelectedFile, setAnalysisResult, setScanResult, setIsLoading, setLoadingMessage,
    setError, setScripts, setIsProfileOpen, setIsSubscriptionModalOpen,
    setCurrentUser, setConversionHistory;
  auto 12 with honest.

Lemma land_synced (w : World) (x : Stretch) others tid next :
  synced w -> honest (ui w) (updates x) -> synced (land w x others tid next).
Proof.
  intros [Hu Hh] [Hxu Hxh]. unfold synced. rendered. unfold persistEffects. cbn.
  destruct (userChanged (updates x)), (historyChanged (updates x)); cbn;
    unfold persistUserEffect; cbn;
    rewrite ?Hxu, ?Hxh by done; repeat case_match; by split.
Qed.

Lemma resume_honest (t : Task) (st : Settlement) (s : Session) (x : Stretch) :
  resume t st (begin s) = Some x -> honest s (updates x).
Proof.
  destruct t, st as [[] | [] | [] | [] ?]; cbn [resume]; try done;
    try (intros [= <-]; honestly).
  destruct (makeBlob _ _); intros [= <-]; honestly.
Qed.

Lemma step_synced (w w' : World) (e : Event) :
  synced w -> step w e = Some w' -> synced w'.
Proof.
  intros Hs. destruct e; cbn [step].
  8: { intros [= <-]. handled.
       destruct (bool_decide _), (currentUser (ui w)); cbn [fst];
         (apply land_synced; [done |]); honestly. }
  1-11: intros [= <-]; (apply land_synced; [done |]); handled;
    repeat case_match; honestly.
  intros (t & x & _ & Hx & ->)%settle_inv.
  apply land_synced; [done |]. by eapply resume_honest.
Qed.

Lemma run_invariant (P : World -> Prop) :
  (forall w w' e, P w -> step w e = Some w' -> P w') ->
  forall es w w', P w -> run w es = Some w' -> P w'.
Proof.
  intros Hstep es. induction es as [| e es IH]; intros w w' HP; cbn [run].
  - by intros [= <-].
  - destruct (step w e) as [w1 |] eqn:E; [| done]. eauto.
Qed.

(** X2: whatever the user does and whichever calls settle, local storage
    keeps holding exactly the user and the history of the state: once
    in step, always in step. *)
Theorem storage_follows_state (w w' : World) (es : list Event) :
  synced w -> run w es = Some w' -> synced w'.
Proof. apply run_invariant, step_synced. Qed.

Lemma storage_follows_state_witness :
  let w := Sample.analysed (Sample.alex FreeTrial (Some 1700000000000)) in
  let es := [SettingsChange {| darkMode := false; notifications := true |};
             ConversionSelect Sample.pdf;
             Settle 1 (ScriptsSettled (Return ∅));
             Settle 1 (ConvertSettled (Return Sample.converted) Sample.browser);
             ActivateSubscription "PRO-YEARLY-2024";
             Logout] in
  synced w /\ exists w', run w es = Some w' /\ synced w'.
Proof.
  split; [by split |]. eexists. split; [reflexivity |].
  apply (storage_follows_state
           (Sample.analysed (Sample.alex FreeTrial (Some 1700000000000))) _
           [SettingsChange {| darkMode := false; notifications := true |};
            ConversionSelect Sample.pdf;
            Settle 1 (ScriptsSettled (Return ∅));
            Settle 1 (ConvertSettled (Return Sample.converted) Sample.browser);
            ActivateSubscription "PRO-YEARLY-2024";
            Logout]); [by split | reflexivity].
Defined.

Lemma mount_ui (now : Z) (ls : LocalStorage) :
  ui (mount now ls)
  = {| selectedFile := None; analysisResult := None; scanResult := None;
       isLoading := false; loadingMessage := ""; error := None; scripts := None;
       currentUser := resolveSubscriptionState now <$> filecraft_user ls;
       isProfileOpen := false;
       conversionHistory := default [] (filecraft_history ls);
       isSubscriptionModalOpen :=
         match filecraft_user ls with
         | Some u => bool_decide (subscription (resolveSubscriptionState now u) = Expired)
         | None => false
         end |}.
Proof.
  destruct ls as [[u |] [h |]]; unfold mount, loadEffect, commit, modalEffect,
    expiredEffect, isSubscriptionExpired; cbn;
    try reflexivity; by destruct (bool_decide (subscription _ = Expired)).
Qed.

Lemma mount_localStorage (now : Z) (ls : LocalStorage) :
  localStorage (mount now ls)
  = {| filecraft_user := resolveSubscriptionState now <$> filecraft_user ls;
       filecraft_history := Some (default [] (filecraft_history ls)) |}.
Proof. by destruct ls as [[u |] [h |]]. Qed.

(** X3: mounting shows the stored user after the trial check and the
    stored history in its order (none when nothing is stored), leaves
    storage in step with that state, opens the subscription modal
    exactly when the user is expired, and starts with no file selected
    and no call pending. *)
Theorem mount_restores (now : Z) (ls : LocalStorage) :
  let w := mount now ls in
  currentUser (ui w) = resolveSubscriptionState now <$> filecraft_user ls
  /\ conversionHistory (ui w) = default [] (filecraft_history ls)
  /\ synced w
  /\ isSubscriptionModalOpen (ui w) = isSubscriptionExpired (ui w)
  /\ selectedFile (ui w) = None
  /\ pending w = ∅.
Proof.
  cbn zeta. unfold synced. rewrite mount_localStorage, mount_ui. cbn.
  repeat split. unfold isSubscriptionExpired. cbn.
  by destruct (filecraft_user ls).
Qed.

(** A later check sees at least the expiries an earlier one saw. *)
Lemma resolve_later (now now' : Z) (u : User) :
  now <= now' ->
  resolveSubscriptionState now' (resolveSubscriptionState now u)
  = resolveSubscriptionState now' u.
Proof.
  intros Hle. unfold resolveSubscriptionState at 2.
  destruct (bool_decide (subscription u = FreeTrial) && _ && _) eqn:E; [| done].
  apply andb_true_iff in E as [[Hs Ht]%andb_true_iff Hgt].
  unfold resolveSubscriptionState. rewrite Hs, Ht. cbn.
  destruct (trialEndsAt u) as [t |]; [| done]. cbn in *.
  apply Z.ltb_lt in Hgt. by destruct (Z.ltb_spec t now'); [| lia].
Qed.

(** X4: reloading the page twice amounts to reloading it once at the later
    time: what the first load writes back to storage does not change
    what the second load shows. *)
Theorem reload_later (now now' : Z) (ls : LocalStorage) :
  now <= now' ->
  mount now' (localStorage (mount now ls)) = mount now' ls.
Proof.
  intros Hle.
  assert (forall w1 w2, ui w1 = ui w2 -> localStorage w1 = localStorage w2 ->
            pending w1 = pending w2 -> nextTask w1 = nextTask w2 ->
            saved w1 = saved w2 -> w1 = w2) as Hext.
  { intros [] []; cbn; congruence. }
  apply Hext; try reflexivity.
  - rewrite !mount_ui, mount_localStorage. cbn.
    destruct (filecraft_user ls) as [u |]; cbn; [| done].
    by rewrite resolve_later.
  - rewrite !mount_localStorage. cbn.
    destruct (filecraft_user ls) as [u |]; cbn; [| done].
    by rewrite resolve_later.
Qed.

Lemma reload_later_witness :
  let ls := {| filecraft_user := Some (Sample.alex FreeTrial (Some 1700000000000));
               filecraft_history := None |} in
  1699999999999 <= 1700000000001
  /\ mount 1700000000001 (localStorage (mount 1699999999999 ls)) = mount 1700000000001 ls.
Proof.
  split; [lia |].
  apply (reload_later 1699999999999 1700000000001
           {| filecraft_user := Some (Sample.alex FreeTrial (Some 1700000000000));
              filecraft_history := None |}).
  lia.
Defined.

(** X5: a stored trial user whose (non-zero) trial end is past is shown as
    expired at load with the subscription modal open, and closing the
    modal changes nothing. *)
Theorem expired_modal_cannot_close (now t : Z) (u : User) (h : option (list ConversionHistoryEntry)) :
  subscription u = FreeTrial -> trialEndsAt u = Some t -> t <> 0 -> now > t ->
  let w := mount now {| filecraft_user := Some u; filecraft_history := h |} in
  isSubscriptionExpired (ui w) = true
  /\ isSubscriptionModalOpen (ui w) = true
  /\ step w SubscriptionClose = Some w.
Proof.
  intros Hs Ht Hz Hgt w.
  assert (isSubscriptionExpired (ui w) = true) as Hexp.
  { subst w. rewrite mount_ui. unfold isSubscriptionExpired. cbn.
    by rewrite (resolve_trial_over now u t). }
  split; [done |]. split.
  - subst w. rewrite mount_ui. cbn. by rewrite (resolve_trial_over now u t).
  - cbn [step]. unfold handleSubscriptionClose. rewrite Hexp. by rewrite sync_begin.
Qed.

Lemma expired_modal_cannot_close_witness :
  let u := Sample.alex FreeTrial (Some 1700000000000) in
  let w := mount 1700000000001 {| filecraft_user := Some u; filecraft_history := None |} in
  subscription u = FreeTrial /\ trialEndsAt u = Some 1700000000000
  /\ 1700000000000 <> 0 /\ 1700000000001 > 1700000000000
  /\ isSubscriptionExpired (ui w) = true
  /\ isSubscriptionModalOpen (ui w) = true
  /\ step w SubscriptionClose = Some w.
Proof.
  split; [reflexivity |]. split; [reflexivity |]. split; [lia |]. split; [lia |].
  apply (expired_modal_cannot_close 1700000000001 1700000000000
           (Sample.alex FreeTrial (Some 1700000000000)) None); [reflexivity | reflexivity | lia | lia].
Defined.

(** X6: activating with the designated code leaves a user who is not
    expired, closes the subscription modal, stores the new user, and
    keeps the history, the selected file and the analysis. *)
Theorem activation_unblocks (w : World) (u : User) :
  currentUser (ui w) = Some u ->
  exists w',
    activateSubscription "PRO-YEARLY-2024" w = (w', true)
    /\ isSubscriptionExpired (ui w') = false
    /\ isSubscriptionModalOpen (ui w') = false
    /\ filecraft_user (localStorage w') = currentUser (ui w')
    /\ conversionHistory (ui w') = conversionHistory (ui w)
    /\ selectedFile (ui w') = selectedFile (ui w)
    /\ analysisResult (ui w') = analysisResult (ui w).
Proof.
  intros Hu. unfold activateSubscription, handleActivateSubscription.
  rewrite Hu. cbn. eexists. split; [reflexivity |].
  unfold sync, land, commit, modalEffect, expiredEffect, persistEffects. cbn.
  rewrite andb_false_r. cbn. case_bool_decide; by repeat split.
Qed.

Lemma activation_unblocks_witness :
  let w := mount 1700000000001 {| filecraft_user := Some (Sample.alex FreeTrial (Some 1700000000000));
                                  filecraft_history := None |} in
  currentUser (ui w) = Some (Sample.alex Expired (Some 1700000000000))
  /\ exists w',
       activateSubscription "PRO-YEARLY-2024" w = (w', true)
       /\ isSubscriptionExpired (ui w') = false
       /\ isSubscriptionModalOpen (ui w') = false
       /\ filecraft_user (localStorage w') = currentUser (ui w')
       /\ conversionHistory (ui w') = conversionHistory (ui w)
       /\ selectedFile (ui w') = selectedFile (ui w)
       /\ analysisResult (ui w') = analysisResult (ui w).
Proof.
  split; [reflexivity |].
  apply (activation_unblocks
           (mount 1700000000001 {| filecraft_user := Some (Sample.alex FreeTrial (Some 1700000000000));
                                   filecraft_history := None |})
           (Sample.alex Expired (Some 1700000000000))).
  reflexivity.
Defined.

(** ** Renaming, settings, login *)

Lemma modalEffect_steady (before s : Session) :
  isSubscriptionExpired s = isSubscriptionExpired before -> modalEffect before s = s.
Proof. intros E. unfold modalEffect. by rewrite bool_decide_eq_true_2. Qed.

(** X7: renaming replaces the selected file by one with the new name and
    the same type, modification time and bytes, and keeps the analysis,
    the scan, the scripts, the pending calls and the storage; with no
    file selected it does nothing. *)
Theorem rename_keeps_content (w : World) (newName : string) :
  match selectedFile (ui w) with
  | Some f =>
      exists w',
        step w (RenameFile newName) = Some w'
        /\ selectedFile (ui w')
           = Some {| file_name := newName; file_type := file_type f;
                     lastModified := lastModified f; file_bytes := file_bytes f |}
        /\ analysisResult (ui w') = analysisResult (ui w)
        /\ scanResult (ui w') = scanResult (ui w)
        /\ scripts (ui w') = scripts (ui w)
        /\ pending w' = pending w
        /\ localStorage w' = localStorage w
  | None => step w (RenameFile newName) = Some w
  end.
Proof.
  cbn [step]. unfold handleRenameFile.
  destruct (selectedFile (ui w)) as [f |].
  - eexists. split; [reflexivity |]. rendered. by repeat split.
  - by rewrite sync_begin.
Qed.

(** X8: changing the settings of the logged-in user changes the settings
    alone and stores the updated user, leaving the stored history and
    the subscription modal as they were; with nobody logged in it does
    nothing. *)
Theorem settings_change_persists (w : World) (newSettings : Settings) :
  match currentUser (ui w) with
  | Some u =>
      exists w',
        step w (SettingsChange newSettings) = Some w'
        /\ currentUser (ui w')
           = Some {| name := name u; subscription := subscription u;
                     trialEndsAt := trialEndsAt u; settings := newSettings |}
        /\ filecraft_user (localStorage w') = currentUser (ui w')
        /\ filecraft_history (localStorage w') = filecraft_history (localStorage w)
        /\ conversionHistory (ui w') = conversionHistory (ui w)
        /\ isSubscriptionModalOpen (ui w') = isSubscriptionModalOpen (ui w)
  | None => step w (SettingsChange newSettings) = Some w
  end.
Proof.
  cbn [step]. unfold handleSettingsChange.
  destruct (currentUser (ui w)) as [u |] eqn:Hu.
  - eexists. split; [reflexivity |].
    unfold sync, land, commit, persistEffects. cbn. rewrite Hu. cbn.
    rewrite modalEffect_steady by (unfold isSubscriptionExpired; cbn; by rewrite Hu).
    by repeat split.
  - by rewrite sync_begin.
Qed.

(** X9: whenever storage is in step with the state and nobody is logged
    in, login creates the default trial user, whose trial ends three
    calendar days on (72 hours less the change of the local clock): the
    branch of [handleLogin] that restores a stored user is never
    taken. *)
Theorem login_after_logout_is_a_new_trial (w : World) (now clockChange : Z) :
  synced w -> currentUser (ui w) = None ->
  exists w',
    step w (Login now clockChange) = Some w'
    /\ currentUser (ui w')
       = Some {| name := "Alex Rider";
                 subscription := FreeTrial;
                 trialEndsAt := Some (now + threeDays - clockChange);
                 settings := {| darkMode := true; notifications := false |} |}
    /\ synced w'.
Proof.
  intros Hs Hu. pose proof Hs as [Hsu _]. rewrite Hu in Hsu.
  destruct (login_without_stored_user w now clockChange Hsu) as (w' & Hstep & Hnew).
  exists w'. repeat split; try done;
    by apply (step_synced w w' (Login now clockChange)).
Qed.

Lemma login_after_logout_is_a_new_trial_witness :
  let w := mount 1700000000000 {| filecraft_user := None; filecraft_history := None |} in
  synced w /\ currentUser (ui w) = None
  /\ exists w',
       step w (Login 1700000000000 3600000) = Some w'
       /\ currentUser (ui w') = Some (Sample.alex FreeTrial (Some 1700255600000))
       /\ synced w'.
Proof.
  split; [by split |]. split; [reflexivity |].
  apply (login_after_logout_is_a_new_trial
           (mount 1700000000000 {| filecraft_user := None; filecraft_history := None |})
           1700000000000 3600000); [by split | reflexivity].
Defined.

(** The trial check on a user whose trial ends at the non-zero time
    [trialEnds]. *)
Lemma new_trial_window (trialEnds now : Z) :
  trialEnds <> 0 ->
  subscription (resolveSubscriptionState now (Sample.alex FreeTrial (Some trialEnds)))
  = if bool_decide (trialEnds < now) then Expired else FreeTrial.
Proof.
  intros Hz. unfold resolveSubscriptionState. cbn.
  destruct (Z.eqb_spec trialEnds 0); [done |].
  destruct (Z.ltb_spec trialEnds now);
    repeat case_bool_decide; cbn; try done; lia.
Qed.

(** X10: a user created by a login at time [created] has a trial that
    ends three calendar days on, 72 hours after [created] less the
    change of the local clock in between; provided that end is not the
    time 0, the user loaded again at time [now] is still on the trial
    up to that end and is expired at any later time. *)
Theorem trial_lasts_three_days (w : World) (created clockChange now : Z) :
  filecraft_user (localStorage w) = None ->
  created + threeDays - clockChange <> 0 ->
  exists w' u,
    step w (Login created clockChange) = Some w'
    /\ currentUser (ui (mount now (localStorage w'))) = Some u
    /\ name u = "Alex Rider"
    /\ trialEndsAt u = Some (created + threeDays - clockChange)
    /\ subscription u
       = if bool_decide (created + threeDays - clockChange < now)
         then Expired else FreeTrial.
Proof.
  intros Hs Hz. eexists. eexists. split; [reflexivity |].
  rewrite mount_ui. cbn. unfold handleLogin, persistEffects. rewrite Hs. cbn.
  rewrite andb_false_r. cbn. split; [reflexivity |].
  split; [| split; [| by apply new_trial_window]];
    unfold resolveSubscriptionState; by destruct (_ && _ && _).
Qed.

(** A login at midnight before the night the clock is put back an hour:
    the trial runs 73 hours, and the user is still on it 72 hours and a
    millisecond after the login. *)
Lemma trial_lasts_three_days_witness :
  let w := mount 1699070400000 {| filecraft_user := None; filecraft_history := None |} in
  filecraft_user (localStorage w) = None
  /\ 1699070400000 + threeDays - (-3600000) <> 0
  /\ exists w' u,
       step w (Login 1699070400000 (-3600000)) = Some w'
       /\ currentUser (ui (mount 1699329600001 (localStorage w'))) = Some u
       /\ name u = "Alex Rider"
       /\ trialEndsAt u = Some 1699333200000
       /\ subscription u = FreeTrial.
Proof.
  split; [reflexivity |]. split; [unfold threeDays; lia |].
  apply (trial_lasts_three_days
           (mount 1699070400000 {| filecraft_user := None; filecraft_history := None |})
           1699070400000 (-3600000) 1699329600001); [reflexivity | unfold threeDays; lia].
Defined.

(** X11: logging out and in again closes the profile panel and leaves the
    selected file, the scan, the analysis, the scripts, the error, the
    history and the pending calls of the previous session in place. *)
Theorem logout_keeps_file_and_analysis (w : World) (now clockChange : Z) :
  exists w',
    run w [Logout; Login now clockChange] = Some w'
    /\ selectedFile (ui w') = selectedFile (ui w)
    /\ analysisResult (ui w') = analysisResult (ui w)
    /\ scanResult (ui w') = scanResult (ui w)
    /\ scripts (ui w') = scripts (ui w)
    /\ error (ui w') = error (ui w)
    /\ conversionHistory (ui w') = conversionHistory (ui w)
    /\ pending w' = pending w
    /\ isProfileOpen (ui w') = false.
Proof.
  eexists. split; [reflexivity |].
  cbn [step]. unfold handleLogin.
  destruct (filecraft_user _); rendered; by repeat split.
Qed.

(** ** The selection and conversion pipelines *)

(** X12: selecting a file, a scan that resolves and an analysis that
    resolves: first loading with the scanning message and everything of
    the previous file cleared, then the scan stored with the analysing
    message naming the file, at last loading off, the message empty,
    both results stored and no error. *)
Theorem file_select_success (w : World) (file : File) (scan : ScanResult)
    (result : AnalysisResult) :
  let tid := nextTask w in
  exists w1 w2 w3,
    step w (FileSelect (Some file)) = Some w1
    /\ step w1 (Settle tid (ScanSettled (Return scan))) = Some w2
    /\ step w2 (Settle tid (AnalyzeSettled (Return result))) = Some w3
    /\ (isLoading (ui w1) = true
        /\ loadingMessage (ui w1) = "Scanning for threats..."
        /\ selectedFile (ui w1) = Some file
        /\ scanResult (ui w1) = None /\ analysisResult (ui w1) = None
        /\ error (ui w1) = None /\ scripts (ui w1) = None)
    /\ (isLoading (ui w2) = true
        /\ loadingMessage (ui w2) = "Analyzing " +:+ file_name file +:+ "..."
        /\ scanResult (ui w2) = Some scan /\ analysisResult (ui w2) = None
        /\ pending w2 !! tid = Some (AwaitAnalyze file (status scan)))
    /\ (isLoading (ui w3) = false
        /\ loadingMessage (ui w3) = ""
        /\ selectedFile (ui w3) = Some file
        /\ scanResult (ui w3) = Some scan /\ analysisResult (ui w3) = Some result
        /\ error (ui w3) = None
        /\ pending w3 !! tid = None).
Proof.
  intros tid. do 3 eexists.
  split; [reflexivity |]. cbn [step]. unfold settle at 1, spawn.
  started (AwaitScan file). split; [reflexivity |]. unfold settle.
  started (AwaitAnalyze file (status scan)). split; [reflexivity |].
  split; [rendered; by repeat split |].
  split.
  - rendered; repeat split; try done; by apply land_awaiting.
  - rendered; repeat split; try done; cbn; by rewrite lookup_delete_eq.
Qed.

(** X13: a selection without a file, and a conversion without an analysis
    or without a file, change neither the state nor the storage, start
    no call and save nothing. *)
Theorem handlers_guard_missing_input (w : World) (t : ConversionSuggestion) :
  analysisResult (ui w) = None \/ selectedFile (ui w) = None ->
  exists w1 w2,
    step w (FileSelect None) = Some w1
    /\ step w (ConversionSelect t) = Some w2
    /\ ui w1 = ui w /\ localStorage w1 = localStorage w
    /\ pending w1 = pending w /\ saved w1 = saved w
    /\ ui w2 = ui w /\ localStorage w2 = localStorage w
    /\ pending w2 = pending w /\ saved w2 = saved w.
Proof.
  intros H. do 2 eexists. split; [reflexivity |]. split; [reflexivity |].
  assert (handleConversionSelect t (ui w) (begin (ui w)) = finished (begin (ui w))) as ->.
  { unfold handleConversionSelect.
    destruct H as [-> | ->]; [done | by destruct (analysisResult _)]. }
  cbn. unfold spawn, land, commit. cbn. rewrite modalEffect_same. by repeat split.
Qed.

Lemma handlers_guard_missing_input_witness :
  let w := Sample.loggedIn (Sample.alex Pro None) in
  (analysisResult (ui w) = None \/ selectedFile (ui w) = None)
  /\ exists w1 w2,
       step w (FileSelect None) = Some w1
       /\ step w (ConversionSelect Sample.pdf) = Some w2
       /\ ui w1 = ui w /\ localStorage w1 = localStorage w
       /\ pending w1 = pending w /\ saved w1 = saved w
       /\ ui w2 = ui w /\ localStorage w2 = localStorage w
       /\ pending w2 = pending w /\ saved w2 = saved w.
Proof.
  split; [by left |].
  apply (handlers_guard_missing_input (Sample.loggedIn (Sample.alex Pro None)) Sample.pdf).
  by left.
Defined.

(** X14: when script generation resolves and the content conversion is
    rejected, the generated scripts stay on show, the error message is
    the fixed prefix followed by the message of the error (or by the
    unknown-error text for a value that is no [Error]), nothing is
    saved and the file and the analysis are kept. *)
Theorem conversion_failure_keeps_scripts
    (w : World) (a : AnalysisResult) (f : File) (t : ConversionSuggestion)
    (generatedScripts : gmap string string) (b : Browser) (err : Thrown) :
  analysisResult (ui w) = Some a ->
  selectedFile (ui w) = Some f ->
  exists w',
    run w [ConversionSelect t;
           Settle (nextTask w) (ScriptsSettled (Return generatedScripts));
           Settle (nextTask w) (ConvertSettled (Throw err) b)] = Some w'
    /\ scripts (ui w') = Some generatedScripts
    /\ error (ui w')
       = Some ("Failed to perform conversion. "
               +:+ match err with
                   | ErrorObject message => message
                   | OtherValue => "An unknown error occurred."
                   end)
    /\ saved w' = saved w
    /\ selectedFile (ui w') = Some f
    /\ analysisResult (ui w') = Some a
    /\ pending w' !! nextTask w = None.
Proof.
  intros Ha Hf. cbn [run step]. rewrite (conversion_starts w a f t Ha Hf).
  unfold settle at 1, spawn.
  started (AwaitScripts (sourceFormatOf a) a f t). unfold settle.
  started (AwaitConvert a f t).
  eexists. split; [reflexivity |]. rendered.
  repeat split; try done; cbn; by rewrite lookup_delete_eq.
Qed.

Lemma conversion_failure_keeps_scripts_witness :
  let w := Sample.analysed (Sample.alex Pro None) in
  analysisResult (ui w) = Some Sample.docx
  /\ selectedFile (ui w) = Some Sample.report
  /\ exists w',
       run w [ConversionSelect Sample.pdf;
              Settle 1 (ScriptsSettled (Return {[ "python" := "print(1)" ]}));
              Settle 1 (ConvertSettled (Throw (ErrorObject "quota exceeded")) Sample.browser)]
       = Some w'
       /\ scripts (ui w') = Some {[ "python" := "print(1)" ]}
       /\ error (ui w') = Some "Failed to perform conversion. quota exceeded"
       /\ saved w' = saved w
       /\ selectedFile (ui w') = Some Sample.report
       /\ analysisResult (ui w') = Some Sample.docx
       /\ pending w' !! 1%nat = None.
Proof.
  split; [reflexivity |]. split; [reflexivity |].
  apply (conversion_failure_keeps_scripts
           (Sample.analysed (Sample.alex Pro None)) Sample.docx Sample.report Sample.pdf
           {[ "python" := "print(1)" ]} Sample.browser (ErrorObject "quota exceeded")
           eq_refl eq_refl).
Defined.

(** ** Renaming and converting *)

(** X15: a conversion started after a rename saves under the new name's
    base name and records the new name in the history. *)
Theorem rename_then_convert_uses_new_name
    (w : World) (a : AnalysisResult) (f : File) (t : ConversionSuggestion)
    (newName : string) (generatedScripts : gmap string string)
    (cr : ConversionResult) (b : Browser) (blob : Blob) :
  analysisResult (ui w) = Some a ->
  selectedFile (ui w) = Some f ->
  makeBlob b cr = Return blob ->
  let renamed := {| file_name := newName; file_type := file_type f;
                    lastModified := lastModified f; file_bytes := file_bytes f |} in
  exists w' entry,
    run w [RenameFile newName;
           ConversionSelect t;
           Settle (nextTask w) (ScriptsSettled (Return generatedScripts));
           Settle (nextTask w) (ConvertSettled (Return cr) b)] = Some w'
    /\ saved w' = {| download := newFileName renamed t; href := blob |} :: saved w
    /\ conversionHistory (ui w') = entry :: conversionHistory (ui w)
    /\ originalName entry = newName.
Proof.
  intros Ha Hf Hblob renamed.
  cbn [run step]. unfold handleRenameFile. rewrite Hf. fold renamed.
  set (w1 := sync w _).
  assert (analysisResult (ui w1) = Some a) as Ha1 by (subst w1; by rendered).
  assert (selectedFile (ui w1) = Some renamed) as Hf1 by (subst w1; by rendered).
  change (nextTask w) with (nextTask w1).
  rewrite (conversion_starts w1 a renamed t Ha1 Hf1).
  unfold settle at 1, spawn.
  started (AwaitScripts (sourceFormatOf a) a renamed t). unfold settle.
  started (AwaitConvert a renamed t). rewrite Hblob.
  do 2 eexists. split; [reflexivity |].
  subst w1. rendered. by repeat split.
Qed.

Lemma rename_then_convert_uses_new_name_witness :
  let w := Sample.analysed (Sample.alex Pro None) in
  analysisResult (ui w) = Some Sample.docx
  /\ selectedFile (ui w) = Some Sample.report
  /\ makeBlob Sample.browser Sample.converted
     = Return {| blob_parts := Text "%PDF-1.4"; blob_type := "application/pdf" |}
  /\ exists w' entry,
       run w [RenameFile "final.v2.docx";
              ConversionSelect Sample.pdf;
              Settle 1 (ScriptsSettled (Return ∅));
              Settle 1 (ConvertSettled (Return Sample.converted) Sample.browser)] = Some w'
       /\ saved w' = [ {| download := "final.v2.pdf";
                          href := {| blob_parts := Text "%PDF-1.4";
                                     blob_type := "application/pdf" |} |} ]
       /\ conversionHistory (ui w') = entry :: conversionHistory (ui w)
       /\ originalName entry = "final.v2.docx".
Proof.
  split; [reflexivity |]. split; [reflexivity |]. split; [reflexivity |].
  apply (rename_then_convert_uses_new_name
           (Sample.analysed (Sample.alex Pro None)) Sample.docx Sample.report Sample.pdf
           "final.v2.docx" ∅ Sample.converted Sample.browser _ eq_refl eq_refl eq_refl).
Defined.

(** X16: a rename while a conversion waits for its content does not reach
    that conversion: the file is saved under the old name's base name
    and the history records the old name, although the file shown is
    the renamed one. *)
Theorem rename_during_conversion_is_ignored
    (w : World) (tid : nat) (a : AnalysisResult) (f : File) (t : ConversionSuggestion)
    (newName : string) (cr : ConversionResult) (b : Browser) (blob : Blob) :
  pending w !! tid = Some (AwaitConvert a f t) ->
  makeBlob b cr = Return blob ->
  exists w' entry,
    run w [RenameFile newName; Settle tid (ConvertSettled (Return cr) b)] = Some w'
    /\ saved w' = {| download := newFileName f t; href := blob |} :: saved w
    /\ conversionHistory (ui w') = entry :: conversionHistory (ui w)
    /\ originalName entry = file_name f
    /\ (forall g, selectedFile (ui w) = Some g ->
          file_name <$> selectedFile (ui w') = Some newName).
Proof.
  intros Hp Hblob. cbn [run step]. unfold settle.
  assert (pending (sync w (handleRenameFile newName (ui w) (begin (ui w)))) = pending w) as ->.
  { unfold handleRenameFile. by destruct (selectedFile (ui w)). }
  rewrite Hp. cbn [resume]. rewrite Hblob.
  do 2 eexists. split; [reflexivity |].
  unfold handleRenameFile. destruct (selectedFile (ui w)) as [g |]; rendered;
    repeat split; done.
Qed.

Lemma rename_during_conversion_is_ignored_witness :
  let w := Sample.converting (Sample.alex Pro None) in
  pending w !! 1%nat = Some (AwaitConvert Sample.png Sample.photo Sample.pdf)
  /\ makeBlob Sample.browser Sample.converted
     = Return {| blob_parts := Text "%PDF-1.4"; blob_type := "application/pdf" |}
  /\ exists w' entry,
       run w [RenameFile "holiday.png";
              Settle 1 (ConvertSettled (Return Sample.converted) Sample.browser)] = Some w'
       /\ saved w' = [ {| download := "photo.pdf";
                          href := {| blob_parts := Text "%PDF-1.4";
                                     blob_type := "application/pdf" |} |} ]
       /\ conversionHistory (ui w') = entry :: conversionHistory (ui w)
       /\ originalName entry = "photo.png"
       /\ file_name <$> selectedFile (ui w') = Some "holiday.png".
Proof.
  split; [reflexivity |]. split; [reflexivity |].
  destruct (rename_during_conversion_is_ignored
              (Sample.converting (Sample.alex Pro None)) 1 Sample.png Sample.photo
              Sample.pdf "holiday.png" Sample.converted Sample.browser _ eq_refl eq_refl)
    as (w' & entry & Hrun & Hsaved & Hh & Hname & Hsel).
  exists w', entry. repeat split; try assumption.
  by apply (Hsel Sample.photo).
Defined.

(** ** The history and the saved files over a whole session *)

(** A step either leaves the history and the saved files alone or puts
    one entry and one file in front. *)
Lemma step_history (w w' : World) (e : Event) :
  step w e = Some w' ->
  (conversionHistory (ui w') = conversionHistory (ui w) /\ saved w' = saved w)
  \/ (exists entry a, conversionHistory (ui w') = entry :: conversionHistory (ui w)
                      /\ saved w' = a :: saved w).
Proof.
  destruct e; cbn [step].
  8: { intros [= <-]. left. handled.
       destruct (bool_decide _), (currentUser (ui w)); by rendered. }
  1-11: intros [= <-]; left; handled; repeat case_match; by rendered.
  unfold settle. destruct (pending w !! tid) as [t |]; [| done].
  destruct t, st as [[] | [] | [] | [] ?]; cbn [resume]; try done;
    try (intros [= <-]; left; by rendered).
  destruct (makeBlob _ _); intros [= <-]; [right | left]; rendered; eauto.
Qed.

(** X17: over any sequence of events the history and the list of saved
    files only grow at the front, and by the same number of items: no
    entry is ever removed or changed, and every saved file has its
    entry. *)
Theorem history_only_grows (w w' : World) (es : list Event) :
  run w es = Some w' ->
  conversionHistory (ui w) `suffix_of` conversionHistory (ui w')
  /\ saved w `suffix_of` saved w'
  /\ (length (saved w') + length (conversionHistory (ui w))
      = length (saved w) + length (conversionHistory (ui w')))%nat.
Proof.
  revert w. induction es as [| e es IH]; intros w; cbn [run].
  - by intros [= <-].
  - destruct (step w e) as [w1 |] eqn:Hstep; [| done].
    intros (Hh & Hs & Hn)%IH.
    destruct (step_history _ _ _ Hstep) as [[Eh Es] | (entry & a & Eh & Es)];
      rewrite Eh, Es in *; cbn in *.
    + done.
    + repeat split; [by eapply suffix_cons_l | by eapply suffix_cons_l | lia].
Qed.

Lemma history_only_grows_witness :
  let w := Sample.analysed (Sample.alex Pro None) in
  let es := [ConversionSelect Sample.pdf;
             Settle 1 (ScriptsSettled (Return ∅));
             Settle 1 (ConvertSettled (Return Sample.converted) Sample.browser);
             Reset; Logout] in
  exists w',
    run w es = Some w'
    /\ conversionHistory (ui w) `suffix_of` conversionHistory (ui w')
    /\ saved w `suffix_of` saved w'
    /\ (length (saved w') + length (conversionHistory (ui w))
        = length (saved w) + length (conversionHistory (ui w')))%nat.
Proof.
  eexists. split; [reflexivity |].
  apply (history_only_grows (Sample.analysed (Sample.alex Pro None)) _
           [ConversionSelect Sample.pdf;
            Settle 1 (ScriptsSettled (Return ∅));
            Settle 1 (ConvertSettled (Return Sample.converted) Sample.browser);
            Reset; Logout]).
  reflexivity.
Defined.

(** X18: whenever a settled call ends its handler, in success or in
    failure, loading is off afterwards, whatever other calls are still
    pending. *)
Theorem finished_handler_stops_loading (w w' : World) (tid : nat) (st : Settlement) :
  settle w tid st = Some w' ->
  finishedAt w' tid ->
  isLoading (ui w') = false.
Proof.
  unfold settle, finishedAt. destruct (pending w !! tid) as [t |]; [| done].
  destruct t, st as [[] | [] | [] | [] ?]; cbn [resume]; try done;
    try (intros [= <-]; by rendered);
    try (intros [= <-]; intros Hp; exfalso; revert Hp; unfold land, commit; cbn;
         by rewrite lookup_insert_eq).
  destruct (makeBlob _ _); intros [= <-]; by rendered.
Qed.

Lemma finished_handler_stops_loading_witness :
  let w := Sample.converting (Sample.alex Pro None) in
  exists w',
    settle w 1 (ConvertSettled (Throw OtherValue) Sample.browser) = Some w'
    /\ finishedAt w' 1
    /\ isLoading (ui w) = true
    /\ isLoading (ui w') = false.
Proof.
  eexists. split; [reflexivity |]. split; [reflexivity |]. split; [reflexivity |].
  apply (finished_handler_stops_loading (Sample.converting (Sample.alex Pro None)) _ 1
           (ConvertSettled (Throw OtherValue) Sample.browser)); reflexivity.
Defined.

(** ** The user over a whole session *)

(** The asynchronous handlers never set the user. *)
Lemma resume_user (t : Task) (st : Settlement) (s : Session) (x : Stretch) :
  resume t st (begin s) = Some x -> currentUser (state (updates x)) = currentUser s.
Proof.
  destruct t, st as [[] | [] | [] | [] ?]; cbn [resume]; try done;
    try by intros [= <-].
  destruct (makeBlob _ _); by intros [= <-].
Qed.

(** What one step can do to the user of a synced component: nothing,
    log out, create the trial user, change the settings, or make the
    user a Pro user. *)
Lemma step_user (w w' : World) (e : Event) :
  synced w -> step w e = Some w' ->
  currentUser (ui w') = currentUser (ui w)
  \/ currentUser (ui w') = None
  \/ (exists trialEnds, currentUser (ui w')
                        = Some (Sample.alex FreeTrial (Some trialEnds)))
  \/ (exists u s, currentUser (ui w) = Some u
                  /\ currentUser (ui w')
                     = Some {| name := name u; subscription := subscription u;
                               trialEndsAt := trialEndsAt u; settings := s |})
  \/ (exists u, currentUser (ui w) = Some u
                /\ currentUser (ui w')
                   = Some {| name := name u; subscription := Pro;
                             trialEndsAt := None; settings := settings u |}).
Proof.
  intros [Hsu _]. destruct e; cbn [step].
  - intros [= <-]. left. handled. destruct file; by rendered.
  - intros [= <-]. left. handled. repeat case_match; by rendered.
  - intros [= <-]. left. handled. repeat case_match; by rendered.
  - intros [= <-]. left. by rendered.
  - intros [= <-]. handled. rewrite Hsu.
    destruct (currentUser (ui w)) eqn:Hu; rendered; [left | right; right; left]; eauto.
  - intros [= <-]. right; left. by rendered.
  - intros [= <-]. handled.
    destruct (currentUser (ui w)) eqn:Hu; rendered; [| by left].
    cbn. rewrite Hu. right; right; right; left. eauto.
  - intros [= <-]. handled.
    destruct (bool_decide _), (currentUser (ui w)) eqn:Hu; rendered; try by left.
    do 4 right. eauto.
  - intros [= <-]. left. by rendered.
  - intros [= <-]. left. by rendered.
  - intros [= <-]. left. by rendered.
  - intros [= <-]. left. handled. repeat case_match; by rendered.
  - intros (t & x & _ & Hx & ->)%settle_inv. left.
    apply resume_user in Hx. by rendered.
Qed.

Lemma step_not_expired (w w' : World) (e : Event) :
  synced w /\ isSubscriptionExpired (ui w) = false ->
  step w e = Some w' ->
  synced w' /\ isSubscriptionExpired (ui w') = false.
Proof.
  intros [Hs Hx] Hstep. split; [by eapply step_synced |].
  revert Hx. unfold isSubscriptionExpired.
  destruct (step_user _ _ _ Hs Hstep)
    as [-> | [-> | [(now & ->) | [(u & s & -> & ->) | (u & -> & ->)]]]]; done.
Qed.

(** X19: a mounted component whose user is not expired never shows an
    expired user, whatever happens and however late: the trial check
    runs at load only. *)
Theorem expiry_is_only_seen_at_load (w w' : World) (es : list Event) :
  synced w ->
  isSubscriptionExpired (ui w) = false ->
  run w es = Some w' ->
  isSubscriptionExpired (ui w') = false.
Proof.
  intros Hs Hx Hrun.
  by destruct (run_invariant _ step_not_expired es w w' (conj Hs Hx) Hrun).
Qed.

Lemma expiry_is_only_seen_at_load_witness :
  let w := mount 1700000000000
             {| filecraft_user := Some (Sample.alex FreeTrial (Some 1700000000001));
                filecraft_history := None |} in
  let es := [Logout; Login 1800000000000 0;
             SettingsChange {| darkMode := false; notifications := true |}] in
  synced w /\ isSubscriptionExpired (ui w) = false
  /\ exists w', run w es = Some w' /\ isSubscriptionExpired (ui w') = false.
Proof.
  split; [by split |]. split; [reflexivity |].
  eexists. split; [reflexivity |].
  apply (expiry_is_only_seen_at_load
           (mount 1700000000000
              {| filecraft_user := Some (Sample.alex FreeTrial (Some 1700000000001));
                 filecraft_history := None |}) _
           [Logout; Login 1800000000000 0;
            SettingsChange {| darkMode := false; notifications := true |}]);
    [by split | reflexivity | reflexivity].
Defined.

Lemma resolve_shape (now : Z) (u : User) :
  trialShape u -> trialShape (resolveSubscriptionState now u).
Proof.
  unfold trialShape, resolveSubscriptionState.
  destruct (bool_decide (subscription u = FreeTrial) && _ && _) eqn:E; [| done].
  apply andb_true_iff in E as [[Hs%bool_decide_eq_true _]%andb_true_iff _].
  cbn. rewrite Hs. intros <-. done.
Qed.

Lemma step_shaped (w w' : World) (e : Event) :
  synced w /\ shaped w -> step w e = Some w' -> synced w' /\ shaped w'.
Proof.
  intros [Hs Hx] Hstep. split; [by eapply step_synced |].
  unfold shaped in *. intros u'.
  destruct (step_user _ _ _ Hs Hstep)
    as [-> | [-> | [(now & ->) | [(u & s & Hu & ->) | (u & Hu & ->)]]]];
    [auto | done | | | ]; intros [= <-]; try done.
  apply (Hx u Hu).
Qed.

(** X20: if the stored user has a trial end exactly when not Pro, so has
    the user of every state reached after mounting. *)
Theorem pro_users_have_no_trial_end (now : Z) (ls : LocalStorage) (es : list Event)
    (w' : World) :
  (forall u, filecraft_user ls = Some u -> trialShape u) ->
  run (mount now ls) es = Some w' ->
  forall u, currentUser (ui w') = Some u ->
            (subscription u = Pro <-> trialEndsAt u = None).
Proof.
  intros Hls Hrun.
  assert (synced (mount now ls) /\ shaped (mount now ls)) as Hinit.
  { split.
    - unfold synced. by rewrite mount_localStorage, mount_ui.
    - unfold shaped. rewrite mount_ui. cbn.
      destruct (filecraft_user ls) as [u0 |]; [| done].
      intros u [= <-]. apply resolve_shape. by apply Hls. }
  by destruct (run_invariant _ step_shaped es _ w' Hinit Hrun).
Qed.

Lemma pro_users_have_no_trial_end_witness :
  let ls := {| filecraft_user := None; filecraft_history := None |} in
  let es := [Login 1700000000000 0; ActivateSubscription "PRO-YEARLY-2024"] in
  (forall u, filecraft_user ls = Some u -> trialShape u)
  /\ exists w',
       run (mount 1700000000000 ls) es = Some w'
       /\ currentUser (ui w') = Some (Sample.alex Pro None)
       /\ (subscription (Sample.alex Pro None) = Pro
           <-> trialEndsAt (Sample.alex Pro None) = None).
Proof.
  assert (forall u, @None User = Some u -> trialShape u) as Hls
    by (intros u; discriminate).
  split; [exact Hls |].
  eexists. split; [reflexivity |]. split; [reflexivity |].
  apply (pro_users_have_no_trial_end 1700000000000
           {| filecraft_user := None; filecraft_history := None |}
           [Login 1700000000000 0; ActivateSubscription "PRO-YEARLY-2024"] _
           Hls eq_refl (Sample.alex Pro None) eq_refl).
Defined.

(** ** The proofreader *)

Lemma startsWith_iff (x s : string) :
  Js.startsWith s x = true <-> exists rest, s = x +:+ rest.
Proof.
  unfold Js.startsWith. revert s. induction x as [| c p IH]; intros s.
  - split; [intros _; by exists s | by destruct s].
  - destruct s as [| d s]; [split; [done | by intros [? ?]] |].
    simpl. destruct (Ascii.ascii_dec c d) as [<- | Hne].
    + rewrite IH. split; intros [rest E]; exists rest.
      * by rewrite E.
      * by injection E.
    + split; [done | intros [rest E]; by injection E].
Qed.

Lemma endsWith_iff (x s : string) :
  Js.endsWith s x = true <-> exists base, s = base +:+ x.
Proof.
  induction s as [| c s IH]; cbn [Js.endsWith].
  - destruct (String.eqb_spec "" x) as [<- | Hne].
    + split; [by exists "" | done].
    + split; [done |]. intros [[| d base] E]; [by destruct (Hne E) | discriminate E].
  - destruct (String.eqb_spec (String c s) x) as [<- | Hne].
    + split; [by exists "" | done].
    + rewrite IH. split.
      * intros [base ->]. by exists (String c base).
      * intros [[| d base] E]; [by destruct (Hne E) |].
        injection E as _ ->. by exists base.
Qed.

(** X21: the proofreader is offered exactly when a file is selected whose
    MIME type starts with text/ or whose name ends in .md or .txt. *)
Theorem isTextFile_iff (s : Session) :
  isTextFile s = true <->
  exists f, selectedFile s = Some f
            /\ ((exists rest, file_type f = "text/" +:+ rest)
                \/ (exists base, file_name f = base +:+ ".md")
                \/ (exists base, file_name f = base +:+ ".txt")).
Proof.
  unfold isTextFile. destruct (selectedFile s) as [f |].
  - rewrite !orb_true_iff, startsWith_iff, !endsWith_iff.
    split.
    + intros H. exists f. split; [done |]. tauto.
    + intros (? & [= <-] & H). tauto.
  - split; [done | by intros (? & ? & _)].
Qed.

(** X22: renaming the selected file to a name ending in .txt or .md makes
    the proofreader available, whatever the file's type, which the
    rename leaves as it was. *)
Theorem rename_to_text_name_offers_proofreader (w : World) (f : File) (base : string) :
  selectedFile (ui w) = Some f ->
  exists w1 w2,
    step w (RenameFile (base +:+ ".txt")) = Some w1
    /\ step w (RenameFile (base +:+ ".md")) = Some w2
    /\ isTextFile (ui w1) = true
    /\ isTextFile (ui w2) = true
    /\ file_type <$> selectedFile (ui w1) = Some (file_type f).
Proof.
  intros Hf. do 2 eexists. split; [reflexivity |]. split; [reflexivity |].
  unfold handleRenameFile. rewrite Hf. rendered. unfold isTextFile. cbn.
  repeat split.
  - apply orb_true_iff. right. apply endsWith_iff. by exists base.
  - apply orb_true_iff. left. apply orb_true_iff. right. apply endsWith_iff. by exists base.
Qed.

Lemma rename_to_text_name_offers_proofreader_witness :
  let w := Sample.analysed (Sample.alex Pro None) in
  selectedFile (ui w) = Some Sample.report
  /\ isTextFile (ui w) = false
  /\ exists w1 w2,
       step w (RenameFile ("report" +:+ ".txt")) = Some w1
       /\ step w (RenameFile ("report" +:+ ".md")) = Some w2
       /\ isTextFile (ui w1) = true
       /\ isTextFile (ui w2) = true
       /\ file_type <$> selectedFile (ui w1) = Some (file_type Sample.report).
Proof.
  split; [reflexivity |]. split; [reflexivity |].
  apply (rename_to_text_name_offers_proofreader
           (Sample.analysed (Sample.alex Pro None)) Sample.report "report" eq_refl).
Defined.
